(** * PlayerGold SDK for Unreal Engine: the authenticated HTTP client facade

    A shallow embedding of [UPlayerGoldSDK] (PlayerGoldSDK.h / PlayerGoldSDK.cpp)
    and the properties of its specification.

    The subsystem object is a record of its four data members; every member
    function is a computation in a small monad that reads the platform clock,
    threads the object and records, in order, the observable actions: log
    lines, HTTP requests handed to the engine and delegate invocations.  The
    engine services the SDK calls (double arithmetic, the JSON reader and
    writer, the HTTP module) are not part of the repository: they are the
    fields of two interfaces, and every theorem holds for all their
    implementations. *)

From stdpp Require Import gmap strings list pretty.
From Stdlib Require Import Ascii QArith.

Local Open Scope Z_scope.

(** ** Engine interface: numbers *)

Abbreviation FString := string.

(** [int32] values are integers in the 32-bit two's complement range. *)
Definition Int32 (z : Z) : Prop := -2147483648 <= z <= 2147483647.

(** The C++ types [double] and [float] with the operations the SDK uses.
    [dge] is [>=], [dlt] is [<]; [int32_to_double] is the implicit promotion in
    [FPlatformTime::Seconds() + ExpiresIn], [double_to_int32] the cast inside
    [GetIntegerField], [double_to_float] the narrowing in
    [float Balance = ...], [float_to_double] the widening of [Amount]. *)
Class Numeric := {
  double : Type;
  float : Type;
  d_0 : double;
  d_1 : double;
  d_300 : double;
  d_0_01 : double;
  dadd : double -> double -> double;
  dsub : double -> double -> double;
  dge : double -> double -> bool;
  dlt : double -> double -> bool;
  int32_to_double : Z -> double;
  double_to_int32 : double -> Z;
  double_to_float : double -> float;
  float_to_double : float -> double;
  dlt_not_dge : forall a b, dlt a b = true -> dge a b = false;
  int32_round_trip : forall z, Int32 z -> double_to_int32 (int32_to_double z) = z
}.

(** ** Engine interface: JSON *)

(** [FJsonValue] and [FJsonObject]: an object is a map from field names to
    values ([TMap<FString, TSharedPtr<FJsonValue>>]). *)
#[warnings="-register-all"]
Inductive FJsonValue `{Numeric} : Type :=
| JNull
| JString (Value : FString)
| JNumber (Value : double)
| JBoolean (Value : bool)
| JArray (Values : list FJsonValue)
| JObject (Values : gmap string FJsonValue).

Abbreviation FJsonObject := (gmap string FJsonValue).

(** [FJsonSerializer::Deserialize] (which fills the object and returns
    [true], or returns [false]), [FJsonSerializer::Serialize] through the
    default writer, and the two conversions the value accessors fall back on
    when a field has another type than the one asked for. *)
Class JsonLibrary `{Numeric} := {
  Deserialize : FString -> option FJsonObject;
  Serialize : FJsonObject -> FString;
  SanitizeFloat : double -> FString;
  StringToNumber : FString -> option double
}.

Section JsonAccessors.
Context `{JsonLibrary}.

Definition new_FJsonObject : FJsonObject := ∅.

Definition SetStringField (FieldName StringValue : FString) (obj : FJsonObject) : FJsonObject :=
  <[FieldName := JString StringValue]> obj.

Definition SetNumberField (FieldName : FString) (Number : double) (obj : FJsonObject) : FJsonObject :=
  <[FieldName := JNumber Number]> obj.

Definition HasField (obj : FJsonObject) (FieldName : FString) : bool :=
  bool_decide (is_Some (obj !! FieldName)).

(** [GetField<EJson::None>]: the value of the field, a null value when the
    object has no such field. *)
Definition GetField (obj : FJsonObject) (FieldName : FString) : FJsonValue :=
  match obj !! FieldName with
  | Some v => v
  | None => JNull
  end.

(** [FJsonValue::AsString] and [FJsonValue::AsNumber]: the default of the
    result type when the value cannot be read as one. *)
Definition AsString (v : FJsonValue) : FString :=
  match v with
  | JString s => s
  | JNumber d => SanitizeFloat d
  | JBoolean b => if b then "true" else "false"
  | _ => EmptyString
  end.

Definition AsNumber (v : FJsonValue) : double :=
  match v with
  | JNumber d => d
  | JBoolean b => if b then d_1 else d_0
  | JString s => match StringToNumber s with Some d => d | None => d_0 end
  | _ => d_0
  end.

Definition GetStringField (obj : FJsonObject) (FieldName : FString) : FString :=
  AsString (GetField obj FieldName).

Definition GetNumberField (obj : FJsonObject) (FieldName : FString) : double :=
  AsNumber (GetField obj FieldName).

Definition GetIntegerField (obj : FJsonObject) (FieldName : FString) : Z :=
  double_to_int32 (GetNumberField obj FieldName).
End JsonAccessors.

(** ** Engine interface: strings, HTTP, delegates *)

(** [FString::IsEmpty]. *)
Definition IsEmpty (s : FString) : bool :=
  match s with
  | EmptyString => true
  | String _ _ => false
  end.

(** [FString::Printf] with one string argument: the format is copied and the
    first [%s] conversion is replaced by the argument. *)
Fixpoint Printf (Fmt Arg : FString) : FString :=
  match Fmt with
  | String "%"%char (String "s"%char Rest) => Arg +:+ Rest
  | String c Rest => String c (Printf Rest Arg)
  | EmptyString => EmptyString
  end.

(** A dynamic delegate ([DECLARE_DYNAMIC_DELEGATE_OneParam]) is either unbound
    or bound to a function of the caller, named here by a number. *)
Inductive FScriptDelegate : Type :=
| Unbound
| BoundTo (Function : nat).

Abbreviation FOnBalanceReceived := FScriptDelegate.
Abbreviation FOnTransactionCreated := FScriptDelegate.
Abbreviation FOnError := FScriptDelegate.

Definition IsBound (d : FScriptDelegate) : bool :=
  match d with
  | Unbound => false
  | BoundTo _ => true
  end.

(** What [OnProcessRequestComplete().BindUObject(this, &UPlayerGoldSDK::...)]
    can bind on a request: one of the three response handlers, the last two
    together with the caller's delegates as payload. *)
Inductive FHttpRequestCompleteDelegate : Type :=
| NotBound
| BoundOnAuthenticationResponse
| BoundOnBalanceResponse (OnSuccess : FOnBalanceReceived) (OnError : FOnError)
| BoundOnTransactionResponse (OnSuccess : FOnTransactionCreated) (OnError : FOnError).

Record IHttpRequest : Type := {
  URL : FString;
  Verb : FString;
  Headers : gmap string string;
  Content : FString;
  OnProcessRequestComplete : FHttpRequestCompleteDelegate
}.

(** [FHttpModule::CreateRequest]: a fresh request. *)
Definition HttpModule_CreateRequest : IHttpRequest :=
  {| URL := EmptyString; Verb := EmptyString; Headers := ∅;
     Content := EmptyString; OnProcessRequestComplete := NotBound |}.

Definition SetURL (u : FString) (r : IHttpRequest) : IHttpRequest :=
  {| URL := u; Verb := Verb r; Headers := Headers r; Content := Content r;
     OnProcessRequestComplete := OnProcessRequestComplete r |}.

Definition SetVerb (v : FString) (r : IHttpRequest) : IHttpRequest :=
  {| URL := URL r; Verb := v; Headers := Headers r; Content := Content r;
     OnProcessRequestComplete := OnProcessRequestComplete r |}.

Definition SetHeader (HeaderName HeaderValue : FString) (r : IHttpRequest) : IHttpRequest :=
  {| URL := URL r; Verb := Verb r; Headers := <[HeaderName := HeaderValue]> (Headers r);
     Content := Content r; OnProcessRequestComplete := OnProcessRequestComplete r |}.

Definition SetContentAsString (c : FString) (r : IHttpRequest) : IHttpRequest :=
  {| URL := URL r; Verb := Verb r; Headers := Headers r; Content := c;
     OnProcessRequestComplete := OnProcessRequestComplete r |}.

Definition BindUObject (d : FHttpRequestCompleteDelegate) (r : IHttpRequest) : IHttpRequest :=
  {| URL := URL r; Verb := Verb r; Headers := Headers r; Content := Content r;
     OnProcessRequestComplete := d |}.

(** The response handed to a completion handler; [FHttpResponsePtr] is a
    shared pointer, [None] when it is not valid. *)
Record IHttpResponse : Type := {
  ResponseCode : Z;
  ContentAsString : FString
}.

Abbreviation FHttpResponsePtr := (option IHttpResponse).
Abbreviation FHttpRequestPtr := (option IHttpRequest).

(** [bWasSuccessful && Response.IsValid()]: the response the success branch
    of a handler works on, if the condition holds. *)
Definition SuccessfulResponse (Response : FHttpResponsePtr) (bWasSuccessful : bool)
  : option IHttpResponse :=
  if bWasSuccessful then Response else None.

Inductive ELogVerbosity : Type := Log | Error.

(** ** The subsystem object and its member functions *)

Section SDK.
Context `{JsonLibrary}.

(** The data members of [UPlayerGoldSDK].  [HttpModule] points to the
    engine's HTTP module, which is reached here through
    [HttpModule_CreateRequest]. *)
Record UPlayerGoldSDK : Type := {
  ApiUrl : FString;
  ApiKey : FString;
  AuthToken : FString;
  TokenExpirationTime : double
}.

(** The object as the engine constructs it: empty strings; the expiry time
    is set by [Initialize]. *)
Definition NewObject : UPlayerGoldSDK :=
  {| ApiUrl := EmptyString; ApiKey := EmptyString; AuthToken := EmptyString;
     TokenExpirationTime := d_0 |}.

(** Observable actions of a member function, in program order. *)
Inductive Event : Type :=
| LogLine (Verbosity : ELogVerbosity) (Message : FString)
| ProcessRequest (Request : IHttpRequest)
| BalanceReceived (Function : nat) (Balance : float)
| TransactionCreated (Function : nat) (TransactionHash : FString)
| ErrorReceived (Function : nat) (ErrorMessage : FString).

Record Outcome (A : Type) : Type := MkOutcome {
  value : A;
  object : UPlayerGoldSDK;
  trace : list Event
}.
Global Arguments MkOutcome {A} _ _ _.
Global Arguments value {A} _.
Global Arguments object {A} _.
Global Arguments trace {A} _.

(** A member function call: given the value of [FPlatformTime::Seconds()]
    during the call and the object, a result, the object afterwards and the
    actions performed. *)
Definition M (A : Type) : Type := double -> UPlayerGoldSDK -> Outcome A.

#[global] Instance M_ret : MRet M := fun A x _ this => MkOutcome x this [].

#[global] Instance M_bind : MBind M := fun A B f m now this =>
  let r1 := m now this in
  let r2 := f (value r1) now (object r1) in
  MkOutcome (value r2) (object r2) (trace r1 ++ trace r2).

Definition Seconds : M double := fun now this => MkOutcome now this [].
Definition get_this : M UPlayerGoldSDK := fun _ this => MkOutcome this this [].
Definition emit (e : Event) : M unit := fun _ this => MkOutcome tt this [e].

Definition set_ApiUrl (v : FString) : M unit := fun _ this =>
  MkOutcome tt {| ApiUrl := v; ApiKey := ApiKey this; AuthToken := AuthToken this;
                  TokenExpirationTime := TokenExpirationTime this |} [].
Definition set_ApiKey (v : FString) : M unit := fun _ this =>
  MkOutcome tt {| ApiUrl := ApiUrl this; ApiKey := v; AuthToken := AuthToken this;
                  TokenExpirationTime := TokenExpirationTime this |} [].
Definition set_AuthToken (v : FString) : M unit := fun _ this =>
  MkOutcome tt {| ApiUrl := ApiUrl this; ApiKey := ApiKey this; AuthToken := v;
                  TokenExpirationTime := TokenExpirationTime this |} [].
Definition set_TokenExpirationTime (v : double) : M unit := fun _ this =>
  MkOutcome tt {| ApiUrl := ApiUrl this; ApiKey := ApiKey this; AuthToken := AuthToken this;
                  TokenExpirationTime := v |} [].

Definition UE_LOG (Verbosity : ELogVerbosity) (Message : FString) : M unit :=
  emit (LogLine Verbosity Message).

(** [Delegate.ExecuteIfBound(Argument)], for the three delegate types. *)
Definition ExecuteIfBound_Balance (d : FOnBalanceReceived) (Balance : float) : M unit :=
  match d with
  | BoundTo f => emit (BalanceReceived f Balance)
  | Unbound => mret tt
  end.

Definition ExecuteIfBound_Transaction (d : FOnTransactionCreated) (TransactionHash : FString)
  : M unit :=
  match d with
  | BoundTo f => emit (TransactionCreated f TransactionHash)
  | Unbound => mret tt
  end.

Definition ExecuteIfBound_Error (d : FOnError) (ErrorMessage : FString) : M unit :=
  match d with
  | BoundTo f => emit (ErrorReceived f ErrorMessage)
  | Unbound => mret tt
  end.

Definition Initialize : M unit :=
  set_TokenExpirationTime d_0;;
  UE_LOG Log "PlayerGold SDK initialized".

Definition Deinitialize : M unit :=
  UE_LOG Log "PlayerGold SDK deinitialized".

Definition CreateRequest (Endpoint Verb : FString) : M IHttpRequest :=
  this ← get_this;
  let Request := HttpModule_CreateRequest in
  let Request := SetURL (ApiUrl this +:+ Endpoint) Request in
  let Request := SetVerb Verb Request in
  let Request := SetHeader "Content-Type" "application/json" Request in
  let Request :=
    if negb (IsEmpty (AuthToken this))
    then SetHeader "Authorization" (Printf "Bearer %s" (AuthToken this)) Request
    else Request in
  mret Request.

Definition Authenticate : M unit :=
  Request ← CreateRequest "/auth/token" "POST";
  this ← get_this;
  let JsonObject := new_FJsonObject in
  let JsonObject := SetStringField "api_key" (ApiKey this) JsonObject in
  let OutputString := Serialize JsonObject in
  let Request := SetContentAsString OutputString Request in
  let Request := BindUObject BoundOnAuthenticationResponse Request in
  emit (ProcessRequest Request).

(** The default of the parameter [InApiUrl] of [InitializeSDK]. *)
Definition DefaultApiUrl : FString := "http://localhost:5000/api/v1".

Definition InitializeSDK (InApiKey InApiUrl : FString) : M unit :=
  set_ApiKey InApiKey;;
  set_ApiUrl InApiUrl;;
  Authenticate.

Definition OnAuthenticationResponse
    (Request : FHttpRequestPtr) (Response : FHttpResponsePtr) (bWasSuccessful : bool)
  : M unit :=
  match SuccessfulResponse Response bWasSuccessful with
  | Some R =>
      match Deserialize (ContentAsString R) with
      | Some JsonObject =>
          set_AuthToken (GetStringField JsonObject "token");;
          let ExpiresIn := GetIntegerField JsonObject "expires_in" in
          now ← Seconds;
          set_TokenExpirationTime (dadd now (int32_to_double ExpiresIn));;
          UE_LOG Log "PlayerGold SDK authenticated successfully"
      | None => mret tt
      end
  | None => UE_LOG Error "PlayerGold SDK authentication failed"
  end.

Definition EnsureAuthenticated : M unit :=
  this ← get_this;
  now ← Seconds;
  if IsEmpty (AuthToken this) || dge now (dsub (TokenExpirationTime this) d_300)
  then Authenticate
  else mret tt.

Definition GetBalance (Address : FString) (OnSuccess : FOnBalanceReceived) (OnError : FOnError)
  : M unit :=
  EnsureAuthenticated;;
  let Endpoint := Printf "/balance/%s" Address in
  Request ← CreateRequest Endpoint "GET";
  let Request := BindUObject (BoundOnBalanceResponse OnSuccess OnError) Request in
  emit (ProcessRequest Request).

Definition OnBalanceResponse
    (Request : FHttpRequestPtr) (Response : FHttpResponsePtr) (bWasSuccessful : bool)
    (OnSuccess : FOnBalanceReceived) (OnError : FOnError) : M unit :=
  match SuccessfulResponse Response bWasSuccessful with
  | Some R =>
      match Deserialize (ContentAsString R) with
      | Some JsonObject =>
          let Balance := double_to_float (GetNumberField JsonObject "balance") in
          ExecuteIfBound_Balance OnSuccess Balance
      | None => ExecuteIfBound_Error OnError "Failed to parse balance response"
      end
  | None =>
      let ErrorMsg :=
        match Response with
        | Some R => ContentAsString R
        | None => "Request failed"
        end in
      ExecuteIfBound_Error OnError ErrorMsg
  end.

Definition CreateTransaction
    (FromAddress ToAddress : FString) (Amount : float) (PrivateKey : FString)
    (OnSuccess : FOnTransactionCreated) (OnError : FOnError) : M unit :=
  EnsureAuthenticated;;
  Request ← CreateRequest "/transaction" "POST";
  let JsonObject := new_FJsonObject in
  let JsonObject := SetStringField "from_address" FromAddress JsonObject in
  let JsonObject := SetStringField "to_address" ToAddress JsonObject in
  let JsonObject := SetNumberField "amount" (float_to_double Amount) JsonObject in
  let JsonObject := SetStringField "private_key" PrivateKey JsonObject in
  let JsonObject := SetNumberField "fee" d_0_01 JsonObject in
  let OutputString := Serialize JsonObject in
  let Request := SetContentAsString OutputString Request in
  let Request := BindUObject (BoundOnTransactionResponse OnSuccess OnError) Request in
  emit (ProcessRequest Request).

Definition OnTransactionResponse
    (Request : FHttpRequestPtr) (Response : FHttpResponsePtr) (bWasSuccessful : bool)
    (OnSuccess : FOnTransactionCreated) (OnError : FOnError) : M unit :=
  match SuccessfulResponse Response bWasSuccessful with
  | Some R =>
      match Deserialize (ContentAsString R) with
      | Some JsonObject =>
          let TransactionHash := GetStringField JsonObject "transaction_hash" in
          ExecuteIfBound_Transaction OnSuccess TransactionHash
      | None => ExecuteIfBound_Error OnError "Failed to parse transaction response"
      end
  | None =>
      let ErrorMsg :=
        match Response with
        | Some R => ContentAsString R
        | None => "Request failed"
        end in
      ExecuteIfBound_Error OnError ErrorMsg
  end.

Definition GetTransaction (TransactionHash : FString) : M unit :=
  EnsureAuthenticated;;
  let Endpoint := Printf "/transaction/%s" TransactionHash in
  Request ← CreateRequest Endpoint "GET";
  emit (ProcessRequest Request).

Definition GetNetworkStatus : M unit :=
  Request ← CreateRequest "/network/status" "GET";
  emit (ProcessRequest Request).

Definition IsAuthenticated : M bool :=
  this ← get_this;
  mret (negb (IsEmpty (AuthToken this))).

(** The HTTP module completing a request: it executes the delegate bound on
    the request with the request, the response and the success flag. *)
Definition Complete
    (Request : IHttpRequest) (Response : FHttpResponsePtr) (bWasSuccessful : bool) : M unit :=
  match OnProcessRequestComplete Request with
  | NotBound => mret tt
  | BoundOnAuthenticationResponse =>
      OnAuthenticationResponse (Some Request) Response bWasSuccessful
  | BoundOnBalanceResponse OnSuccess OnError =>
      OnBalanceResponse (Some Request) Response bWasSuccessful OnSuccess OnError
  | BoundOnTransactionResponse OnSuccess OnError =>
      OnTransactionResponse (Some Request) Response bWasSuccessful OnSuccess OnError
  end.
End SDK.

(** ** Observations on a call *)

Section Observations.
Context `{JsonLibrary}.

(** The requests a call handed to the HTTP module, in order, and the last of
    them: the request of the operation itself, after the authentication
    request [EnsureAuthenticated] may have sent. *)
Fixpoint requests (t : list Event) : list IHttpRequest :=
  match t with
  | ProcessRequest r :: rest => r :: requests rest
  | _ :: rest => requests rest
  | [] => []
  end.

Definition request_of (call : M unit) (now : double) (this : UPlayerGoldSDK)
  : option IHttpRequest :=
  last (requests (trace (call now this))).

(** An authenticate call is a request whose completion is bound to
    [OnAuthenticationResponse]. *)
Definition is_authenticate (r : IHttpRequest) : bool :=
  match OnProcessRequestComplete r with
  | BoundOnAuthenticationResponse => true
  | _ => false
  end.

Definition authenticate_calls (t : list Event) : nat :=
  length (filter (fun r => is_authenticate r = true) (requests t)).

(** Invocations of the caller's success delegate and of its error delegate. *)
Fixpoint success_invocations (t : list Event) : nat :=
  match t with
  | BalanceReceived _ _ :: rest => S (success_invocations rest)
  | TransactionCreated _ _ :: rest => S (success_invocations rest)
  | _ :: rest => success_invocations rest
  | [] => 0%nat
  end.

Fixpoint error_messages (t : list Event) : list FString :=
  match t with
  | ErrorReceived _ msg :: rest => msg :: error_messages rest
  | _ :: rest => error_messages rest
  | [] => []
  end.

(** What [Delegate.ExecuteIfBound(Argument)] contributes to a trace. *)
Definition balance_delivery (OnSuccess : FOnBalanceReceived) (Balance : float) : list Event :=
  match OnSuccess with
  | BoundTo f => [BalanceReceived f Balance]
  | Unbound => []
  end.

Definition transaction_delivery (OnSuccess : FOnTransactionCreated) (TransactionHash : FString)
  : list Event :=
  match OnSuccess with
  | BoundTo f => [TransactionCreated f TransactionHash]
  | Unbound => []
  end.

Definition error_delivery (OnError : FOnError) (ErrorMessage : FString) : list Event :=
  match OnError with
  | BoundTo f => [ErrorReceived f ErrorMessage]
  | Unbound => []
  end.

(** The renewal condition of the specification: no token, or the clock at or
    past the expiry time less the 300 second window. *)
Definition renewal_needed (now : double) (this : UPlayerGoldSDK) : Prop :=
  AuthToken this = EmptyString \/ dge now (dsub (TokenExpirationTime this) d_300) = true.

(** The headers the request construction contract asks for. *)
Definition contract_headers (token : FString) : gmap string string :=
  if IsEmpty token
  then {[ "Content-Type" := "application/json" ]}
  else <[ "Authorization" := "Bearer " +:+ token ]> {[ "Content-Type" := "application/json" ]}.

(** The public operations of the client. *)
Inductive Operation : Type :=
| CallInitializeSDK (InApiKey InApiUrl : FString)
| CallGetBalance (Address : FString) (OnSuccess : FOnBalanceReceived) (OnError : FOnError)
| CallCreateTransaction (FromAddress ToAddress : FString) (Amount : float)
    (PrivateKey : FString) (OnSuccess : FOnTransactionCreated) (OnError : FOnError)
| CallGetTransaction (TransactionHash : FString)
| CallGetNetworkStatus
| CallIsAuthenticated.

Definition call (op : Operation) : M unit :=
  match op with
  | CallInitializeSDK k u => InitializeSDK k u
  | CallGetBalance a s e => GetBalance a s e
  | CallCreateTransaction f t a k s e => CreateTransaction f t a k s e
  | CallGetTransaction h => GetTransaction h
  | CallGetNetworkStatus => GetNetworkStatus
  | CallIsAuthenticated => IsAuthenticated;; mret tt
  end.

(** The path an operation's own request is addressed to. *)
Definition path_of (op : Operation) : option FString :=
  match op with
  | CallInitializeSDK _ _ => Some "/auth/token"
  | CallGetBalance a _ _ => Some ("/balance/" +:+ a)
  | CallCreateTransaction _ _ _ _ _ _ => Some "/transaction"
  | CallGetTransaction h => Some ("/transaction/" +:+ h)
  | CallGetNetworkStatus => Some "/network/status"
  | CallIsAuthenticated => None
  end.
End Observations.

(** ** Sequences of operations *)

Section Sequences.
Context `{JsonLibrary}.

(** Public operations called one after the other, each at its own clock
    value, before any of their requests completes. *)
Fixpoint call_each (calls : list (double * Operation)) (this : UPlayerGoldSDK)
  : Outcome unit :=
  match calls with
  | [] => MkOutcome tt this []
  | (now, op) :: rest =>
      let first := call op now this in
      let others := call_each rest (object first) in
      MkOutcome tt (object others) (trace first ++ trace others)
  end.

(** The operations whose body starts with [EnsureAuthenticated()]. *)
Definition is_guarded (op : Operation) : bool :=
  match op with
  | CallGetBalance _ _ _ | CallCreateTransaction _ _ _ _ _ _ | CallGetTransaction _ => true
  | _ => false
  end.

(** The operations that call [Authenticate], directly or through
    [EnsureAuthenticated]. *)
Definition may_authenticate (op : Operation) : bool :=
  match op with
  | CallInitializeSDK _ _ => true
  | _ => is_guarded op
  end.


End Sequences.

(** ** A reference implementation of the engine interfaces

    Exact rational arithmetic for [double] and [float], and a JSON reader and
    writer for objects, arrays, strings with the simple escapes, decimal
    numbers, booleans and null.  The general theorems below do not depend on
    it; it is what their instances at concrete inputs are evaluated with. *)

Module Reference.

Definition wrap_int32 (z : Z) : Z := (z + 2147483648) mod 4294967296 - 2147483648.

(** The cast of a [double] to [int32]: the fraction is discarded. *)
Definition Q_to_int32 (q : Q) : Z := wrap_int32 (Z.quot (Qnum q) (Z.pos (Qden q))).

Lemma Q_lt_not_ge (a b : Q) : negb (Qle_bool b a) = true -> Qle_bool b a = false.
Proof. destruct (Qle_bool b a); [discriminate | reflexivity]. Qed.

Lemma Q_int32_round_trip (z : Z) : Int32 z -> Q_to_int32 (inject_Z z) = z.
Proof.
  intros [Hlo Hhi]. unfold Q_to_int32, wrap_int32, inject_Z. simpl.
  rewrite Z.quot_1_r. rewrite Z.mod_small by lia. lia.
Qed.

#[export] Instance Q_Numeric : Numeric := {|
  double := Q;
  float := Q;
  d_0 := 0%Q;
  d_1 := 1%Q;
  d_300 := 300%Q;
  d_0_01 := (1 # 100)%Q;
  dadd := Qplus;
  dsub := Qminus;
  dge := fun a b => Qle_bool b a;
  dlt := fun a b => negb (Qle_bool b a);
  int32_to_double := inject_Z;
  double_to_int32 := Q_to_int32;
  double_to_float := fun q => q;
  float_to_double := fun q => q;
  dlt_not_dge := Q_lt_not_ge;
  int32_round_trip := Q_int32_round_trip
|}.

Definition dquote : ascii := "034"%char.
Definition backslash : ascii := "092"%char.

Definition is_space (c : ascii) : bool :=
  match c with
  | " "%char | "009"%char | "010"%char | "013"%char => true
  | _ => false
  end.

Fixpoint skip_ws (s : string) : string :=
  match s with
  | String c rest => if is_space c then skip_ws rest else s
  | EmptyString => EmptyString
  end.

Definition unescape (c : ascii) : option ascii :=
  match c with
  | "034"%char => Some "034"%char
  | "092"%char => Some "092"%char
  | "/"%char => Some "/"%char
  | "b"%char => Some "008"%char
  | "f"%char => Some "012"%char
  | "n"%char => Some "010"%char
  | "r"%char => Some "013"%char
  | "t"%char => Some "009"%char
  | _ => None
  end.

(** The characters of a string literal after its opening quote, and what
    follows the closing quote. *)
Fixpoint read_string (s : string) : option (string * string) :=
  match s with
  | EmptyString => None
  | String c rest =>
      if Ascii.eqb c dquote then Some (EmptyString, rest)
      else if Ascii.eqb c backslash then
        match rest with
        | String e rest' =>
            match unescape e, read_string rest' with
            | Some c', Some (str, tail) => Some (String c' str, tail)
            | _, _ => None
            end
        | EmptyString => None
        end
      else
        match read_string rest with
        | Some (str, tail) => Some (String c str, tail)
        | None => None
        end
  end.

Definition digit_value (c : ascii) : option Z :=
  let n := Z.of_nat (nat_of_ascii c) in
  if bool_decide (48 <= n <= 57) then Some (n - 48) else None.

(** The leading decimal digits of [s]: their value continuing from [acc],
    how many there are, and the rest. *)
Fixpoint read_digits (s : string) (acc : Z) (count : nat) : Z * nat * string :=
  match s with
  | String c rest =>
      match digit_value c with
      | Some d => read_digits rest (10 * acc + d) (S count)
      | None => (acc, count, s)
      end
  | EmptyString => (acc, count, s)
  end.

Definition pow10 (n : nat) : positive := Nat.iter n (Pos.mul 10) 1%positive.

Definition read_number (s : string) : option (Q * string) :=
  let '(negative, s1) :=
    match s with
    | String "-"%char rest => (true, rest)
    | _ => (false, s)
    end in
  let '(ipart, icount, s2) := read_digits s1 0 0%nat in
  let '(num, fcount, s3, well_formed) :=
    match s2 with
    | String "."%char rest =>
        let '(n, k, tail) := read_digits rest ipart 0%nat in
        (n, k, tail, negb (bool_decide (k = 0%nat)))
    | _ => (ipart, 0%nat, s2, true)
    end in
  if negb (bool_decide (icount = 0%nat)) && well_formed then
    let magnitude := Qmake num (pow10 fcount) in
    Some (Qred (if negative then Qopp magnitude else magnitude), s3)
  else None.

Fixpoint parse_value (fuel : nat) (s : string) : option (FJsonValue * string) :=
  match fuel with
  | O => None
  | S fuel =>
      match skip_ws s with
      | String "{"%char rest =>
          match skip_ws rest with
          | String "}"%char rest' => Some (JObject ∅, rest')
          | _ => parse_members fuel rest ∅
          end
      | String "["%char rest =>
          match skip_ws rest with
          | String "]"%char rest' => Some (JArray [], rest')
          | _ => parse_elements fuel rest []
          end
      | String "t"%char (String "r"%char (String "u"%char (String "e"%char rest))) =>
          Some (JBoolean true, rest)
      | String "f"%char
          (String "a"%char (String "l"%char (String "s"%char (String "e"%char rest)))) =>
          Some (JBoolean false, rest)
      | String "n"%char (String "u"%char (String "l"%char (String "l"%char rest))) =>
          Some (JNull, rest)
      | String c rest =>
          if Ascii.eqb c dquote then
            match read_string rest with
            | Some (str, tail) => Some (JString str, tail)
            | None => None
            end
          else
            match read_number (String c rest) with
            | Some (q, tail) => Some (JNumber q, tail)
            | None => None
            end
      | EmptyString => None
      end
  end
with parse_members (fuel : nat) (s : string) (acc : gmap string FJsonValue)
  : option (FJsonValue * string) :=
  match fuel with
  | O => None
  | S fuel =>
      match skip_ws s with
      | String c rest =>
          if Ascii.eqb c dquote then
            match read_string rest with
            | Some (key, s1) =>
                match skip_ws s1 with
                | String ":"%char s2 =>
                    match parse_value fuel s2 with
                    | Some (v, s3) =>
                        match skip_ws s3 with
                        | String ","%char s4 => parse_members fuel s4 (<[key := v]> acc)
                        | String "}"%char s4 => Some (JObject (<[key := v]> acc), s4)
                        | _ => None
                        end
                    | None => None
                    end
                | _ => None
                end
            | None => None
            end
          else None
      | EmptyString => None
      end
  end
with parse_elements (fuel : nat) (s : string) (acc : list FJsonValue)
  : option (FJsonValue * string) :=
  match fuel with
  | O => None
  | S fuel =>
      match parse_value fuel s with
      | Some (v, s1) =>
          match skip_ws s1 with
          | String ","%char s2 => parse_elements fuel s2 (acc ++ [v])
          | String "]"%char s2 => Some (JArray (acc ++ [v]), s2)
          | _ => None
          end
      | None => None
      end
  end.

(** The reader succeeds when the whole text is one JSON object. *)
Definition parse_object (s : string) : option FJsonObject :=
  match parse_value (S (String.length s)) s with
  | Some (JObject fields, rest) =>
      match skip_ws rest with
      | EmptyString => Some fields
      | String _ _ => None
      end
  | _ => None
  end.

(** A number in decimal notation with at most six decimals, at least one. *)
Fixpoint strip_zeros (digits : list ascii) : list ascii :=
  match digits with
  | [] => []
  | c :: rest =>
      match strip_zeros rest with
      | [] => if Ascii.eqb c "0"%char then [] else [c]
      | kept => c :: kept
      end
  end.

Definition print_number (q : Q) : string :=
  let n := Z.abs (Qnum q) in
  let d := Z.pos (Qden q) in
  let ipart := n / d in
  let fpart := (n mod d) * 1000000 / d in
  let decimals := strip_zeros (drop 1 (String.list_ascii_of_string (pretty (1000000 + fpart)))) in
  (if bool_decide (Qnum q < 0) then "-" else EmptyString)
  +:+ pretty ipart +:+ "."
  +:+ String.string_of_list_ascii (match decimals with [] => ["0"%char] | _ => decimals end).

Fixpoint escape (s : string) : string :=
  match s with
  | EmptyString => EmptyString
  | String c rest =>
      if Ascii.eqb c dquote || Ascii.eqb c backslash
      then String backslash (String c (escape rest))
      else String c (escape rest)
  end.

Definition print_string (s : string) : string :=
  String dquote (escape s) +:+ String dquote EmptyString.

Definition join (parts : list string) : string :=
  match parts with
  | [] => EmptyString
  | p :: ps => fold_left (fun out x => out +:+ "," +:+ x) ps p
  end.

Fixpoint print_value (v : FJsonValue) : string :=
  match v with
  | JNull => "null"
  | JString str => print_string str
  | JNumber q => print_number q
  | JBoolean b => if b then "true" else "false"
  | JArray elements => "[" +:+ join (map print_value elements) +:+ "]"
  | JObject fields =>
      "{" +:+ join (map (fun kv => print_string kv.1 +:+ ":" +:+ kv.2)
                        (map_to_list (print_value <$> fields))) +:+ "}"
  end.

Definition string_to_number (s : string) : option Q :=
  match read_number s with
  | Some (q, EmptyString) => Some q
  | _ => None
  end.

#[export] Instance Json : JsonLibrary := {|
  Deserialize := parse_object;
  Serialize := fun obj => print_value (JObject obj);
  SanitizeFloat := print_number;
  StringToNumber := string_to_number
|}.
End Reference.

(** ** Concrete inputs

    Objects, responses and requests the properties are instantiated at, over
    the reference implementation of the engine. *)

Module Examples.
Import Reference.

Definition quoted (s : string) : string :=
  String dquote s +:+ String dquote EmptyString.

(** The body [{ unexpected : shape }] with both strings quoted: JSON without a
    [balance] field. *)
Definition unexpected_shape : string :=
  "{" +:+ quoted "unexpected" +:+ ":" +:+ quoted "shape" +:+ "}".

(** The body [{ balance : 42.5 }]. *)
Definition balance_body : string :=
  "{" +:+ quoted "balance" +:+ ": 42.5}".

(** The body [{ token : abc, expires_in : 3600 }]. *)
Definition token_body : string :=
  "{" +:+ quoted "token" +:+ ":" +:+ quoted "abc" +:+ ","
      +:+ quoted "expires_in" +:+ ":3600}".

Definition ok_response (body : string) : IHttpResponse :=
  {| ResponseCode := 200; ContentAsString := body |}.

Definition refused_response : IHttpResponse :=
  {| ResponseCode := 403; ContentAsString := "insufficient permissions" |}.

(** A configured client that holds no token yet. *)
Definition fresh : UPlayerGoldSDK :=
  {| ApiUrl := DefaultApiUrl; ApiKey := "key";
     AuthToken := EmptyString; TokenExpirationTime := 0%Q |}.

(** The same client holding the token [abc], which expires at 3700 s. *)
Definition signed_in : UPlayerGoldSDK :=
  {| ApiUrl := DefaultApiUrl; ApiKey := "key";
     AuthToken := "abc"; TokenExpirationTime := 3700%Q |}.

(** The requests [GetBalance "addr1"] and [CreateTransaction "A" "B" 10 "k"]
    send from [fresh]. *)
Definition balance_request (OnSuccess : FOnBalanceReceived) (OnError : FOnError)
  : IHttpRequest :=
  {| URL := "http://localhost:5000/api/v1/balance/addr1"; Verb := "GET";
     Headers := {[ "Content-Type" := "application/json" ]};
     Content := EmptyString;
     OnProcessRequestComplete := BoundOnBalanceResponse OnSuccess OnError |}.

Definition transaction_request (OnSuccess : FOnTransactionCreated) (OnError : FOnError)
  : IHttpRequest :=
  {| URL := "http://localhost:5000/api/v1/transaction"; Verb := "POST";
     Headers := {[ "Content-Type" := "application/json" ]};
     Content :=
       Serialize
         (<["fee" := JNumber (1 # 100)%Q]>
            (<["private_key" := JString "k"]>
               (<["amount" := JNumber 10%Q]>
                  (<["to_address" := JString "B"]> {[ "from_address" := JString "A" ]}))));
     OnProcessRequestComplete := BoundOnTransactionResponse OnSuccess OnError |}.

Definition authentication_request : IHttpRequest :=
  {| URL := "http://localhost:5000/api/v1/auth/token"; Verb := "POST";
     Headers := {[ "Content-Type" := "application/json" ]};
     Content := Serialize {[ "api_key" := JString "key" ]};
     OnProcessRequestComplete := BoundOnAuthenticationResponse |}.
End Examples.

(** * Properties *)

(** Runs the monadic plumbing of a call applied to a clock value and an
    object. *)
Ltac run_call :=
  cbv [mbind M_bind mret M_ret get_this Seconds emit UE_LOG
       set_ApiUrl set_ApiKey set_AuthToken set_TokenExpirationTime
       ExecuteIfBound_Balance ExecuteIfBound_Transaction ExecuteIfBound_Error
       value object trace app].

Section Properties.
Context `{JsonLibrary}.

(** ** Strings and traces *)

Lemma append_empty_r (s : FString) : s +:+ EmptyString = s.
Proof.
  induction s as [|c s IH]; [reflexivity|].
  change (String c (s +:+ EmptyString) = String c s). now rewrite IH.
Qed.

Lemma append_associative (s1 s2 s3 : FString) :
  (s1 +:+ s2) +:+ s3 = s1 +:+ (s2 +:+ s3).
Proof.
  induction s1 as [|c s1 IH]; [reflexivity|].
  change (String c ((s1 +:+ s2) +:+ s3) = String c (s1 +:+ (s2 +:+ s3))). now rewrite IH.
Qed.

Lemma Printf_balance (Address : FString) :
  Printf "/balance/%s" Address = "/balance/" +:+ Address.
Proof.
  change (Printf "/balance/%s" Address) with ("/balance/" +:+ (Address +:+ EmptyString)).
  now rewrite append_empty_r.
Qed.

Lemma Printf_transaction (TransactionHash : FString) :
  Printf "/transaction/%s" TransactionHash = "/transaction/" +:+ TransactionHash.
Proof.
  change (Printf "/transaction/%s" TransactionHash)
    with ("/transaction/" +:+ (TransactionHash +:+ EmptyString)).
  now rewrite append_empty_r.
Qed.

Lemma IsEmpty_true (s : FString) : IsEmpty s = true <-> s = EmptyString.
Proof. destruct s; cbn; split; intros E; (reflexivity || discriminate E). Qed.

Lemma IsEmpty_false (s : FString) : IsEmpty s = false <-> s <> EmptyString.
Proof. destruct s; cbn; split; intros E; (reflexivity || discriminate E || congruence). Qed.

Lemma requests_app (t1 t2 : list Event) :
  requests (t1 ++ t2) = requests t1 ++ requests t2.
Proof.
  induction t1 as [|e t1 IH]; [reflexivity|].
  destruct e; cbn; rewrite IH; reflexivity.
Qed.

Lemma renewal_needed_cond now this :
  IsEmpty (AuthToken this) || dge now (dsub (TokenExpirationTime this) d_300) = true
  <-> renewal_needed now this.
Proof.
  unfold renewal_needed. rewrite orb_true_iff, IsEmpty_true. reflexivity.
Qed.

(** ** Outcome of each member function *)

Lemma Initialize_outcome now this :
  Initialize now this =
  MkOutcome tt
    {| ApiUrl := ApiUrl this; ApiKey := ApiKey this; AuthToken := AuthToken this;
       TokenExpirationTime := d_0 |}
    [LogLine Log "PlayerGold SDK initialized"].
Proof. reflexivity. Qed.

Lemma Deinitialize_outcome now this :
  Deinitialize now this = MkOutcome tt this [LogLine Log "PlayerGold SDK deinitialized"].
Proof. reflexivity. Qed.

Lemma CreateRequest_outcome (Endpoint Verb : FString) now this :
  CreateRequest Endpoint Verb now this =
  MkOutcome {| URL := ApiUrl this +:+ Endpoint; Verb := Verb;
               Headers := contract_headers (AuthToken this);
               Content := EmptyString; OnProcessRequestComplete := NotBound |} this [].
Proof.
  unfold CreateRequest, contract_headers. run_call.
  destruct (IsEmpty (AuthToken this)); cbn; [reflexivity|].
  rewrite append_empty_r. reflexivity.
Qed.

Lemma Authenticate_outcome now this :
  Authenticate now this =
  MkOutcome tt this
    [ProcessRequest
       {| URL := ApiUrl this +:+ "/auth/token"; Verb := "POST";
          Headers := contract_headers (AuthToken this);
          Content := Serialize {[ "api_key" := JString (ApiKey this) ]};
          OnProcessRequestComplete := BoundOnAuthenticationResponse |}].
Proof.
  unfold Authenticate. run_call. rewrite CreateRequest_outcome. reflexivity.
Qed.

Lemma EnsureAuthenticated_outcome now this :
  EnsureAuthenticated now this =
  if IsEmpty (AuthToken this) || dge now (dsub (TokenExpirationTime this) d_300)
  then Authenticate now this
  else MkOutcome tt this [].
Proof.
  unfold EnsureAuthenticated. run_call.
  destruct (IsEmpty (AuthToken this) || dge now (dsub (TokenExpirationTime this) d_300));
    [rewrite Authenticate_outcome|]; reflexivity.
Qed.

Lemma EnsureAuthenticated_object now this :
  object (EnsureAuthenticated now this) = this.
Proof.
  rewrite EnsureAuthenticated_outcome, Authenticate_outcome.
  destruct (_ || _); reflexivity.
Qed.

Lemma EnsureAuthenticated_requests now this :
  requests (trace (EnsureAuthenticated now this)) =
  if IsEmpty (AuthToken this) || dge now (dsub (TokenExpirationTime this) d_300)
  then [ {| URL := ApiUrl this +:+ "/auth/token"; Verb := "POST";
            Headers := contract_headers (AuthToken this);
            Content := Serialize {[ "api_key" := JString (ApiKey this) ]};
            OnProcessRequestComplete := BoundOnAuthenticationResponse |} ]
  else [].
Proof.
  rewrite EnsureAuthenticated_outcome, Authenticate_outcome.
  destruct (_ || _); reflexivity.
Qed.

Lemma InitializeSDK_outcome (InApiKey InApiUrl : FString) now this :
  InitializeSDK InApiKey InApiUrl now this =
  MkOutcome tt
    {| ApiUrl := InApiUrl; ApiKey := InApiKey; AuthToken := AuthToken this;
       TokenExpirationTime := TokenExpirationTime this |}
    [ProcessRequest
       {| URL := InApiUrl +:+ "/auth/token"; Verb := "POST";
          Headers := contract_headers (AuthToken this);
          Content := Serialize {[ "api_key" := JString InApiKey ]};
          OnProcessRequestComplete := BoundOnAuthenticationResponse |}].
Proof.
  unfold InitializeSDK. run_call. rewrite Authenticate_outcome. reflexivity.
Qed.

Lemma GetBalance_outcome Address OnSuccess OnError now this :
  GetBalance Address OnSuccess OnError now this =
  MkOutcome tt this
    (trace (EnsureAuthenticated now this) ++
     [ProcessRequest
        {| URL := ApiUrl this +:+ "/balance/" +:+ Address; Verb := "GET";
           Headers := contract_headers (AuthToken this);
           Content := EmptyString;
           OnProcessRequestComplete := BoundOnBalanceResponse OnSuccess OnError |}]).
Proof.
  unfold GetBalance. cbv [mbind M_bind mret M_ret emit].
  rewrite Printf_balance, CreateRequest_outcome, !EnsureAuthenticated_object.
  reflexivity.
Qed.

Lemma CreateTransaction_outcome FromAddress ToAddress Amount PrivateKey OnSuccess OnError
    now this :
  CreateTransaction FromAddress ToAddress Amount PrivateKey OnSuccess OnError now this =
  MkOutcome tt this
    (trace (EnsureAuthenticated now this) ++
     [ProcessRequest
        {| URL := ApiUrl this +:+ "/transaction"; Verb := "POST";
           Headers := contract_headers (AuthToken this);
           Content :=
             Serialize
               (<["fee" := JNumber d_0_01]>
                  (<["private_key" := JString PrivateKey]>
                     (<["amount" := JNumber (float_to_double Amount)]>
                        (<["to_address" := JString ToAddress]>
                           {[ "from_address" := JString FromAddress ]}))));
           OnProcessRequestComplete := BoundOnTransactionResponse OnSuccess OnError |}]).
Proof.
  unfold CreateTransaction. cbv [mbind M_bind mret M_ret emit].
  rewrite CreateRequest_outcome, !EnsureAuthenticated_object.
  reflexivity.
Qed.

Lemma GetTransaction_outcome TransactionHash now this :
  GetTransaction TransactionHash now this =
  MkOutcome tt this
    (trace (EnsureAuthenticated now this) ++
     [ProcessRequest
        {| URL := ApiUrl this +:+ "/transaction/" +:+ TransactionHash; Verb := "GET";
           Headers := contract_headers (AuthToken this);
           Content := EmptyString; OnProcessRequestComplete := NotBound |}]).
Proof.
  unfold GetTransaction. cbv [mbind M_bind mret M_ret emit].
  rewrite Printf_transaction, CreateRequest_outcome, !EnsureAuthenticated_object.
  reflexivity.
Qed.

Lemma GetNetworkStatus_outcome now this :
  GetNetworkStatus now this =
  MkOutcome tt this
    [ProcessRequest
       {| URL := ApiUrl this +:+ "/network/status"; Verb := "GET";
          Headers := contract_headers (AuthToken this);
          Content := EmptyString; OnProcessRequestComplete := NotBound |}].
Proof.
  unfold GetNetworkStatus. cbv [mbind M_bind mret M_ret emit].
  rewrite CreateRequest_outcome. reflexivity.
Qed.

Lemma IsAuthenticated_outcome now this :
  IsAuthenticated now this = MkOutcome (negb (IsEmpty (AuthToken this))) this [].
Proof. reflexivity. Qed.

Lemma OnBalanceResponse_outcome Request Response bWasSuccessful OnSuccess OnError now this :
  OnBalanceResponse Request Response bWasSuccessful OnSuccess OnError now this =
  MkOutcome tt this
    match SuccessfulResponse Response bWasSuccessful with
    | Some R =>
        match Deserialize (ContentAsString R) with
        | Some JsonObject =>
            balance_delivery OnSuccess (double_to_float (GetNumberField JsonObject "balance"))
        | None => error_delivery OnError "Failed to parse balance response"
        end
    | None =>
        error_delivery OnError
          match Response with
          | Some R => ContentAsString R
          | None => "Request failed"
          end
    end.
Proof.
  unfold OnBalanceResponse.
  destruct (SuccessfulResponse Response bWasSuccessful) as [R|].
  - destruct (Deserialize (ContentAsString R)); [destruct OnSuccess | destruct OnError];
      reflexivity.
  - destruct OnError; reflexivity.
Qed.

Lemma OnTransactionResponse_outcome Request Response bWasSuccessful OnSuccess OnError
    now this :
  OnTransactionResponse Request Response bWasSuccessful OnSuccess OnError now this =
  MkOutcome tt this
    match SuccessfulResponse Response bWasSuccessful with
    | Some R =>
        match Deserialize (ContentAsString R) with
        | Some JsonObject =>
            transaction_delivery OnSuccess (GetStringField JsonObject "transaction_hash")
        | None => error_delivery OnError "Failed to parse transaction response"
        end
    | None =>
        error_delivery OnError
          match Response with
          | Some R => ContentAsString R
          | None => "Request failed"
          end
    end.
Proof.
  unfold OnTransactionResponse.
  destruct (SuccessfulResponse Response bWasSuccessful) as [R|].
  - destruct (Deserialize (ContentAsString R)); [destruct OnSuccess | destruct OnError];
      reflexivity.
  - destruct OnError; reflexivity.
Qed.

Lemma SuccessfulResponse_None Response bWasSuccessful :
  SuccessfulResponse Response bWasSuccessful = None
  <-> bWasSuccessful = false \/ Response = None.
Proof.
  unfold SuccessfulResponse. destruct bWasSuccessful, Response; split; intros E;
    try (destruct E as [E|E]); (discriminate E || auto).
Qed.

(** ** The request of an operation *)

Lemma request_of_snoc (call : M unit) now this (t : list Event) (r : IHttpRequest) :
  trace (call now this) = t ++ [ProcessRequest r] ->
  request_of call now this = Some r.
Proof.
  intros E. unfold request_of. rewrite E, requests_app. cbn. apply last_snoc.
Qed.

Lemma GetBalance_request Address OnSuccess OnError now this :
  request_of (GetBalance Address OnSuccess OnError) now this =
  Some {| URL := ApiUrl this +:+ "/balance/" +:+ Address; Verb := "GET";
          Headers := contract_headers (AuthToken this);
          Content := EmptyString;
          OnProcessRequestComplete := BoundOnBalanceResponse OnSuccess OnError |}.
Proof.
  eapply request_of_snoc. rewrite GetBalance_outcome. reflexivity.
Qed.

Lemma CreateTransaction_request FromAddress ToAddress Amount PrivateKey OnSuccess OnError
    now this :
  request_of (CreateTransaction FromAddress ToAddress Amount PrivateKey OnSuccess OnError)
    now this =
  Some {| URL := ApiUrl this +:+ "/transaction"; Verb := "POST";
          Headers := contract_headers (AuthToken this);
          Content :=
            Serialize
              (<["fee" := JNumber d_0_01]>
                 (<["private_key" := JString PrivateKey]>
                    (<["amount" := JNumber (float_to_double Amount)]>
                       (<["to_address" := JString ToAddress]>
                          {[ "from_address" := JString FromAddress ]}))));
          OnProcessRequestComplete := BoundOnTransactionResponse OnSuccess OnError |}.
Proof.
  eapply request_of_snoc. rewrite CreateTransaction_outcome. reflexivity.
Qed.

Lemma GetTransaction_request TransactionHash now this :
  request_of (GetTransaction TransactionHash) now this =
  Some {| URL := ApiUrl this +:+ "/transaction/" +:+ TransactionHash; Verb := "GET";
          Headers := contract_headers (AuthToken this);
          Content := EmptyString; OnProcessRequestComplete := NotBound |}.
Proof.
  eapply request_of_snoc. rewrite GetTransaction_outcome. reflexivity.
Qed.

(** ** Authentication *)

(** C2: a successful authentication response whose body decodes to an object
    with a string [token] and an [int32] number [expires_in] sets [AuthToken]
    to that token and [TokenExpirationTime] to the clock plus [expires_in],
    leaving the configuration alone; and [InitializeSDK] stores the key and
    the base URL and at once sends the authenticate request (POST to
    [/auth/token] with body [{api_key}]), whose completion runs
    [OnAuthenticationResponse]. *)
Theorem authentication_success_sets_session :
  (forall Request R (JsonObject : FJsonObject) (token : FString) (expires_in : Z) now this,
      Deserialize (ContentAsString R) = Some JsonObject ->
      JsonObject !! "token" = Some (JString token) ->
      JsonObject !! "expires_in" = Some (JNumber (int32_to_double expires_in)) ->
      Int32 expires_in ->
      let out := OnAuthenticationResponse Request (Some R) true now this in
      AuthToken (object out) = token /\
      TokenExpirationTime (object out) = dadd now (int32_to_double expires_in) /\
      ApiUrl (object out) = ApiUrl this /\ ApiKey (object out) = ApiKey this) /\
  (forall (InApiKey InApiUrl : FString) now this,
      let out := InitializeSDK InApiKey InApiUrl now this in
      ApiKey (object out) = InApiKey /\ ApiUrl (object out) = InApiUrl /\
      AuthToken (object out) = AuthToken this /\
      TokenExpirationTime (object out) = TokenExpirationTime this /\
      exists Request,
        trace out = [ProcessRequest Request] /\
        URL Request = InApiUrl +:+ "/auth/token" /\ Verb Request = "POST" /\
        Content Request = Serialize {[ "api_key" := JString InApiKey ]} /\
        forall Response bWasSuccessful now' this',
          Complete Request Response bWasSuccessful now' this' =
          OnAuthenticationResponse (Some Request) Response bWasSuccessful now' this').
Proof.
  split.
  - intros Request R JsonObject token expires_in now this HD Htoken Hexp Hrange.
    unfold OnAuthenticationResponse. cbn [SuccessfulResponse]. rewrite HD.
    unfold GetStringField, GetIntegerField, GetNumberField, GetField.
    rewrite Htoken, Hexp. cbn [AsString AsNumber].
    rewrite (int32_round_trip _ Hrange). cbn. auto.
  - intros InApiKey InApiUrl now this. cbv zeta. rewrite InitializeSDK_outcome. cbn.
    repeat split; try reflexivity.
    eexists. repeat split; reflexivity.
Qed.

(** C3: [EnsureAuthenticated] sends an authenticate request exactly when the
    token is empty or the clock is at or past the expiry time less 300
    seconds; when the token is not empty and the clock is strictly before that
    instant, it sends nothing and changes nothing.  It never changes the
    object. *)
Theorem EnsureAuthenticated_triggers_iff_renewal_needed now this :
  (authenticate_calls (trace (EnsureAuthenticated now this)) = 1%nat
   <-> renewal_needed now this) /\
  (authenticate_calls (trace (EnsureAuthenticated now this)) = 0%nat
   <-> ~ renewal_needed now this) /\
  (renewal_needed now this -> EnsureAuthenticated now this = Authenticate now this) /\
  (AuthToken this <> EmptyString ->
   dlt now (dsub (TokenExpirationTime this) d_300) = true ->
   EnsureAuthenticated now this = MkOutcome tt this []) /\
  object (EnsureAuthenticated now this) = this.
Proof.
  pose proof (renewal_needed_cond now this) as Hcond.
  rewrite EnsureAuthenticated_outcome, Authenticate_outcome.
  destruct (IsEmpty (AuthToken this)) eqn:Hempty;
    destruct (dge now (dsub (TokenExpirationTime this) d_300)) eqn:Hge;
    cbn [orb] in *; unfold authenticate_calls; cbn.
  1-3: repeat split; try tauto; try discriminate; try reflexivity;
       try (intros Hn; exfalso; apply Hn; tauto);
       try (intros _ Hlt; apply dlt_not_dge in Hlt; congruence);
       try (intros Hne _; apply IsEmpty_true in Hempty; congruence).
  assert (~ renewal_needed now this) as Hno by (rewrite <- Hcond; discriminate).
  repeat split; try tauto; try discriminate; try reflexivity.
Qed.

(** C4: when the completion handler of an authenticate call is invoked with
    an unsuccessful flag or with an invalid response, the object, and so the
    token and the expiry time, is unchanged, and the only action is an error
    log line: no delegate of a caller is invoked. *)
Theorem authentication_failure_leaves_session
    Request Response bWasSuccessful now this :
  bWasSuccessful = false \/ Response = None ->
  OnAuthenticationResponse Request Response bWasSuccessful now this =
    MkOutcome tt this [LogLine Error "PlayerGold SDK authentication failed"] /\
  (forall InApiKey InApiUrl now0 this0 Sent,
      request_of (InitializeSDK InApiKey InApiUrl) now0 this0 = Some Sent ->
      Complete Sent Response bWasSuccessful now this =
        MkOutcome tt this [LogLine Error "PlayerGold SDK authentication failed"]) /\
  (forall now0 this0 Sent,
      request_of EnsureAuthenticated now0 this0 = Some Sent ->
      let out := Complete Sent Response bWasSuccessful now this in
      AuthToken (object out) = AuthToken this /\
      TokenExpirationTime (object out) = TokenExpirationTime this /\
      error_messages (trace out) = [] /\ success_invocations (trace out) = 0%nat).
Proof.
  intros Hfail. apply SuccessfulResponse_None in Hfail.
  assert (forall Req, OnAuthenticationResponse Req Response bWasSuccessful now this =
            MkOutcome tt this [LogLine Error "PlayerGold SDK authentication failed"]) as Hout.
  { intros Req. unfold OnAuthenticationResponse. rewrite Hfail. reflexivity. }
  split; [apply Hout|]. split.
  - intros InApiKey InApiUrl now0 this0 Sent HS.
    unfold request_of in HS. rewrite InitializeSDK_outcome in HS. cbn in HS.
    injection HS as <-. unfold Complete. cbn. apply Hout.
  - intros now0 this0 Sent HS. unfold request_of in HS.
    rewrite EnsureAuthenticated_requests in HS.
    destruct (_ || _); cbn in HS; [|discriminate HS].
    injection HS as <-. unfold Complete. cbn. rewrite Hout. cbn. auto.
Qed.

(** ** Requests *)

(** C5: whatever its arguments, [CreateTransaction] sends a POST to
    [/transaction] whose body is the serialisation of a JSON object with
    exactly the fields [from_address], [to_address], [amount], [private_key]
    and [fee]; the first four hold the arguments and [fee] is the constant
    0.01. *)
Theorem CreateTransaction_sends_constant_fee
    FromAddress ToAddress Amount PrivateKey OnSuccess OnError now this :
  exists (Request : IHttpRequest) (JsonObject : FJsonObject),
    request_of (CreateTransaction FromAddress ToAddress Amount PrivateKey OnSuccess OnError)
      now this = Some Request /\
    Verb Request = "POST" /\
    URL Request = ApiUrl this +:+ "/transaction" /\
    Content Request = Serialize JsonObject /\
    dom JsonObject =
      ({[ "from_address"; "to_address"; "amount"; "private_key"; "fee" ]} : gset string) /\
    JsonObject !! "from_address" = Some (JString FromAddress) /\
    JsonObject !! "to_address" = Some (JString ToAddress) /\
    JsonObject !! "amount" = Some (JNumber (float_to_double Amount)) /\
    JsonObject !! "private_key" = Some (JString PrivateKey) /\
    JsonObject !! "fee" = Some (JNumber d_0_01).
Proof.
  eexists. eexists. split; [apply CreateTransaction_request|].
  cbn [Verb URL Content]. repeat split.
Qed.

(** C7: a request built by [CreateRequest] has the base URL followed by the
    endpoint as its URL, the given verb, the header [Content-Type:
    application/json], and the header [Authorization: Bearer token] exactly
    when the stored token is not empty; building it changes nothing and sends
    nothing.  Every request a public operation sends is built this way, and
    every operation that has a path sends its request whatever the token
    is. *)
Theorem request_construction_contract :
  (forall Endpoint Verb0 now this,
      let out := CreateRequest Endpoint Verb0 now this in
      URL (value out) = ApiUrl this +:+ Endpoint /\
      Verb (value out) = Verb0 /\
      Headers (value out) !! "Content-Type" = Some "application/json" /\
      (AuthToken this <> EmptyString ->
       Headers (value out) !! "Authorization" = Some ("Bearer " +:+ AuthToken this)) /\
      (AuthToken this = EmptyString -> Headers (value out) !! "Authorization" = None) /\
      dom (Headers (value out)) ⊆ ({[ "Content-Type"; "Authorization" ]} : gset string) /\
      object out = this /\ trace out = []) /\
  (forall op now this Request,
      In Request (requests (trace (call op now this))) ->
      let base := ApiUrl (object (call op now this)) in
      (URL Request = base +:+ "/auth/token" \/
       exists path, path_of op = Some path /\ URL Request = base +:+ path) /\
      Headers Request = contract_headers (AuthToken this)) /\
  (forall op path now this,
      path_of op = Some path ->
      exists Request,
        request_of (call op) now this = Some Request /\
        URL Request = ApiUrl (object (call op now this)) +:+ path).
Proof.
  split; [|split].
  - intros Endpoint Verb0 now this. cbv zeta. rewrite CreateRequest_outcome.
    cbn [value object trace URL Verb Headers]. unfold contract_headers.
    destruct (IsEmpty (AuthToken this)) eqn:Hempty.
    + apply IsEmpty_true in Hempty.
      repeat split; try reflexivity; try (intros; congruence);
        try (rewrite dom_singleton_L; set_solver).
    + apply IsEmpty_false in Hempty.
      repeat split; try reflexivity; try (intros; congruence);
        try (rewrite dom_insert_L, dom_singleton_L; set_solver).
  - intros op now this Request HIn. cbv zeta.
    destruct op; cbn [call path_of] in *.
    + rewrite InitializeSDK_outcome in *. cbn in *.
      destruct HIn as [<-|[]]. cbn. auto.
    + rewrite GetBalance_outcome in *. cbn [trace object] in *.
      rewrite requests_app, EnsureAuthenticated_requests in HIn.
      destruct (_ || _); cbn in HIn; repeat destruct HIn as [<-|HIn]; try destruct HIn;
        cbn; eauto.
    + rewrite CreateTransaction_outcome in *. cbn [trace object] in *.
      rewrite requests_app, EnsureAuthenticated_requests in HIn.
      destruct (_ || _); cbn in HIn; repeat destruct HIn as [<-|HIn]; try destruct HIn;
        cbn; eauto.
    + rewrite GetTransaction_outcome in *. cbn [trace object] in *.
      rewrite requests_app, EnsureAuthenticated_requests in HIn.
      destruct (_ || _); cbn in HIn; repeat destruct HIn as [<-|HIn]; try destruct HIn;
        cbn; eauto.
    + rewrite GetNetworkStatus_outcome in *. cbn in *.
      destruct HIn as [<-|[]]. cbn. eauto.
    + destruct HIn.
  - intros op path now this Hpath.
    destruct op; cbn [call path_of] in *; injection Hpath as <- || discriminate Hpath.
    + eexists. split; [eapply request_of_snoc with (t := []);
                       rewrite InitializeSDK_outcome; reflexivity|].
      rewrite InitializeSDK_outcome. reflexivity.
    + eexists. split; [apply GetBalance_request|]. rewrite GetBalance_outcome. reflexivity.
    + eexists. split; [apply CreateTransaction_request|].
      rewrite CreateTransaction_outcome. reflexivity.
    + eexists. split; [apply GetTransaction_request|].
      rewrite GetTransaction_outcome. reflexivity.
    + eexists. split; [eapply request_of_snoc with (t := []);
                       rewrite GetNetworkStatus_outcome; reflexivity|].
      rewrite GetNetworkStatus_outcome. reflexivity.
Qed.

(** C10: the request [GetBalance] sends has as URL the base URL, then
    [/balance/], then the address, character for character, whatever the
    address contains; likewise [GetTransaction] with [/transaction/] and the
    transaction hash.  Nothing is encoded, escaped or rejected: equal URLs
    come from equal addresses only, and an address with a slash adds a path
    segment. *)
Theorem GetBalance_url_is_plain_concatenation :
  (forall Address OnSuccess OnError now this,
      exists Request,
        request_of (GetBalance Address OnSuccess OnError) now this = Some Request /\
        URL Request = ApiUrl this +:+ "/balance/" +:+ Address /\
        Verb Request = "GET") /\
  (forall TransactionHash now this,
      exists Request,
        request_of (GetTransaction TransactionHash) now this = Some Request /\
        URL Request = ApiUrl this +:+ "/transaction/" +:+ TransactionHash /\
        Verb Request = "GET") /\
  (forall Prefix Suffix OnSuccess OnError now this,
      exists Request,
        request_of (GetBalance (Prefix +:+ "/" +:+ Suffix) OnSuccess OnError) now this
          = Some Request /\
        URL Request = (ApiUrl this +:+ "/balance/" +:+ Prefix) +:+ "/" +:+ Suffix) /\
  (forall Address1 Address2 OnSuccess OnError now this Request1 Request2,
      request_of (GetBalance Address1 OnSuccess OnError) now this = Some Request1 ->
      request_of (GetBalance Address2 OnSuccess OnError) now this = Some Request2 ->
      URL Request1 = URL Request2 -> Address1 = Address2).
Proof.
  split; [|split; [|split]].
  - intros. eexists. split; [apply GetBalance_request|]. split; reflexivity.
  - intros. eexists. split; [apply GetTransaction_request|]. split; reflexivity.
  - intros. eexists. split; [apply GetBalance_request|]. cbn [URL].
    rewrite !append_associative. reflexivity.
  - intros Address1 Address2 OnSuccess OnError now this Request1 Request2 H1 H2 HU.
    rewrite GetBalance_request in H1, H2. injection H1 as <-. injection H2 as <-.
    cbn [URL] in HU. apply (inj (String.app _)) in HU. apply (inj (String.app _)) in HU.
    exact HU.
Qed.

(** ** Completion of GetBalance and CreateTransaction *)

(** C6 (amended): what the handlers of [GetBalance] and [CreateTransaction]
    treat as a transport failure is an unsuccessful flag or an invalid
    response, and nothing else.  Then the handler does nothing but execute
    the error delegate, once, with the raw response body when there is a
    response and with the literal [Request failed] when there is none; a
    bound error delegate receives exactly that string.  The status code of a
    response is never read: a valid response that comes with the success
    flag, whatever its status code, is decoded, so that the error delegate
    gets the fixed decode failure literal when the body does not deserialize,
    and the success delegate is executed when it does. *)
Theorem transport_failure_message :
  (forall Response bWasSuccessful,
      bWasSuccessful = false \/ Response = None ->
      let ErrorMsg :=
        match Response with
        | Some R => ContentAsString R
        | None => "Request failed"
        end in
      (forall Address OnSuccess OnError now this Sent now' this',
          request_of (GetBalance Address OnSuccess OnError) now this = Some Sent ->
          let out := Complete Sent Response bWasSuccessful now' this' in
          trace out = error_delivery OnError ErrorMsg /\
          (forall f, OnError = BoundTo f -> trace out = [ErrorReceived f ErrorMsg]) /\
          (forall msg, In msg (error_messages (trace out)) -> msg = ErrorMsg) /\
          success_invocations (trace out) = 0%nat) /\
      (forall FromAddress ToAddress Amount PrivateKey OnSuccess OnError now this Sent
              now' this',
          request_of
            (CreateTransaction FromAddress ToAddress Amount PrivateKey OnSuccess OnError)
            now this = Some Sent ->
          let out := Complete Sent Response bWasSuccessful now' this' in
          trace out = error_delivery OnError ErrorMsg /\
          (forall f, OnError = BoundTo f -> trace out = [ErrorReceived f ErrorMsg]) /\
          (forall msg, In msg (error_messages (trace out)) -> msg = ErrorMsg) /\
          success_invocations (trace out) = 0%nat)) /\
  (forall (code : Z) (body : FString),
      let Response := Some {| ResponseCode := code; ContentAsString := body |} in
      (forall Address OnSuccess OnError now this Sent now' this',
          request_of (GetBalance Address OnSuccess OnError) now this = Some Sent ->
          let out := Complete Sent Response true now' this' in
          trace out =
            match Deserialize body with
            | Some JsonObject =>
                balance_delivery OnSuccess
                  (double_to_float (GetNumberField JsonObject "balance"))
            | None => error_delivery OnError "Failed to parse balance response"
            end /\
          (forall f, OnError = BoundTo f -> Deserialize body = None ->
                     trace out = [ErrorReceived f "Failed to parse balance response"])) /\
      (forall FromAddress ToAddress Amount PrivateKey OnSuccess OnError now this Sent
              now' this',
          request_of
            (CreateTransaction FromAddress ToAddress Amount PrivateKey OnSuccess OnError)
            now this = Some Sent ->
          let out := Complete Sent Response true now' this' in
          trace out =
            match Deserialize body with
            | Some JsonObject =>
                transaction_delivery OnSuccess (GetStringField JsonObject "transaction_hash")
            | None => error_delivery OnError "Failed to parse transaction response"
            end /\
          (forall f, OnError = BoundTo f -> Deserialize body = None ->
                     trace out = [ErrorReceived f "Failed to parse transaction response"]))).
Proof.
  split.
  - intros Response bWasSuccessful Hfail.
    apply SuccessfulResponse_None in Hfail. cbv zeta. split.
    + intros Address OnSuccess OnError now this Sent now' this' HS.
      rewrite GetBalance_request in HS. injection HS as <-.
      unfold Complete. cbn [OnProcessRequestComplete].
      rewrite OnBalanceResponse_outcome, Hfail. cbn [trace].
      split; [reflexivity|]. split; [intros f ->; reflexivity|].
      destruct OnError; cbn; split; try reflexivity; intros msg [<-|[]] || intros msg [];
        reflexivity.
    + intros FromAddress ToAddress Amount PrivateKey OnSuccess OnError now this Sent
        now' this' HS.
      rewrite CreateTransaction_request in HS. injection HS as <-.
      unfold Complete. cbn [OnProcessRequestComplete].
      rewrite OnTransactionResponse_outcome, Hfail. cbn [trace].
      split; [reflexivity|]. split; [intros f ->; reflexivity|].
      destruct OnError; cbn; split; try reflexivity; intros msg [<-|[]] || intros msg [];
        reflexivity.
  - intros code body. cbv zeta. split.
    + intros Address OnSuccess OnError now this Sent now' this' HS.
      rewrite GetBalance_request in HS. injection HS as <-.
      unfold Complete. cbn [OnProcessRequestComplete].
      rewrite OnBalanceResponse_outcome.
      cbn [SuccessfulResponse trace ContentAsString].
      split; [reflexivity|]. intros f -> ->. reflexivity.
    + intros FromAddress ToAddress Amount PrivateKey OnSuccess OnError now this Sent
        now' this' HS.
      rewrite CreateTransaction_request in HS. injection HS as <-.
      unfold Complete. cbn [OnProcessRequestComplete].
      rewrite OnTransactionResponse_outcome.
      cbn [SuccessfulResponse trace ContentAsString].
      split; [reflexivity|]. intros f -> ->. reflexivity.
Qed.

(** C1 (amended): when the request of a [GetBalance] call completes
    successfully with a valid response, the object is unchanged and: if the
    body does not deserialize as a JSON object, the handler executes the
    error delegate with the literal [Failed to parse balance response] and
    invokes no success delegate; if the body deserializes, the handler
    executes the success delegate with the number read from the field
    [balance] and invokes no error delegate, also when the object has no such
    field, in which case the number read is zero. *)
Theorem GetBalance_decode_outcome
    Address OnSuccess OnError now this Sent R now' this' :
  request_of (GetBalance Address OnSuccess OnError) now this = Some Sent ->
  let out := Complete Sent (Some R) true now' this' in
  object out = this' /\
  (Deserialize (ContentAsString R) = None ->
   trace out = error_delivery OnError "Failed to parse balance response" /\
   success_invocations (trace out) = 0%nat) /\
  (forall JsonObject : FJsonObject,
      Deserialize (ContentAsString R) = Some JsonObject ->
      trace out =
        balance_delivery OnSuccess (double_to_float (GetNumberField JsonObject "balance")) /\
      error_messages (trace out) = [] /\
      (JsonObject !! "balance" = None -> GetNumberField JsonObject "balance" = d_0)).
Proof.
  intros HS. rewrite GetBalance_request in HS. injection HS as <-. cbv zeta.
  unfold Complete. cbn [OnProcessRequestComplete].
  rewrite OnBalanceResponse_outcome. cbn [SuccessfulResponse object trace].
  split; [reflexivity|]. split.
  - intros ->. split; [reflexivity|]. destruct OnError; reflexivity.
  - intros JsonObject ->. split; [reflexivity|]. split.
    + destruct OnSuccess; reflexivity.
    + intros Hmissing. unfold GetNumberField, GetField. rewrite Hmissing. reflexivity.
Qed.

(** C9 (amended): when the request of a [GetBalance] or [CreateTransaction]
    call completes, the handler executes if bound exactly one of the two
    delegates of the caller, once: its trace is the delivery to the success
    delegate or the delivery to the error delegate.  So no completion invokes
    both callbacks or one callback twice, and a completion invokes exactly one
    callback when both delegates are bound. *)
Theorem completion_executes_one_delegate Response bWasSuccessful now' this' :
  (forall Address OnSuccess OnError now this Sent,
      request_of (GetBalance Address OnSuccess OnError) now this = Some Sent ->
      let t := trace (Complete Sent Response bWasSuccessful now' this') in
      ((exists Balance, t = balance_delivery OnSuccess Balance) \/
       (exists msg, t = error_delivery OnError msg)) /\
      (success_invocations t + length (error_messages t) <= 1)%nat /\
      (IsBound OnSuccess = true -> IsBound OnError = true ->
       (success_invocations t + length (error_messages t) = 1)%nat)) /\
  (forall FromAddress ToAddress Amount PrivateKey OnSuccess OnError now this Sent,
      request_of (CreateTransaction FromAddress ToAddress Amount PrivateKey OnSuccess OnError)
        now this = Some Sent ->
      let t := trace (Complete Sent Response bWasSuccessful now' this') in
      ((exists TransactionHash, t = transaction_delivery OnSuccess TransactionHash) \/
       (exists msg, t = error_delivery OnError msg)) /\
      (success_invocations t + length (error_messages t) <= 1)%nat /\
      (IsBound OnSuccess = true -> IsBound OnError = true ->
       (success_invocations t + length (error_messages t) = 1)%nat)).
Proof.
  split.
  - intros Address OnSuccess OnError now this Sent HS.
    rewrite GetBalance_request in HS. injection HS as <-. cbv zeta.
    unfold Complete. cbn [OnProcessRequestComplete].
    rewrite OnBalanceResponse_outcome. cbn [trace].
    destruct (SuccessfulResponse Response bWasSuccessful) as [R|];
      [destruct (Deserialize (ContentAsString R))|];
      (split; [eauto|]); destruct OnSuccess, OnError; cbn;
      split; try lia; intros; (lia || discriminate).
  - intros FromAddress ToAddress Amount PrivateKey OnSuccess OnError now this Sent HS.
    rewrite CreateTransaction_request in HS. injection HS as <-. cbv zeta.
    unfold Complete. cbn [OnProcessRequestComplete].
    rewrite OnTransactionResponse_outcome. cbn [trace].
    destruct (SuccessfulResponse Response bWasSuccessful) as [R|];
      [destruct (Deserialize (ContentAsString R))|];
      (split; [eauto|]); destruct OnSuccess, OnError; cbn;
      split; try lia; intros; (lia || discriminate).
Qed.

(** C8 (amended): no public operation and no completion other than that of
    an authenticate call changes the token or the expiry time: every
    operation leaves both as they were, [OnBalanceResponse] and
    [OnTransactionResponse] leave the whole object as it was, and so does
    the completion of any request not bound to [OnAuthenticationResponse].
    [GetBalance], [CreateTransaction] and [GetTransaction] read the session
    to decide on renewal: each sends one authenticate request when renewal is
    needed and none otherwise.  [IsAuthenticated] only reports whether the
    token is not empty and sends nothing, [GetNetworkStatus] sends no
    authenticate request, and [InitializeSDK] always sends one. *)
Theorem session_frame_and_renewal :
  (forall op now this,
      AuthToken (object (call op now this)) = AuthToken this /\
      TokenExpirationTime (object (call op now this)) = TokenExpirationTime this) /\
  (forall Request Response bWasSuccessful OnSuccess OnError now this,
      object (OnBalanceResponse Request Response bWasSuccessful OnSuccess OnError now this)
        = this /\
      object (OnTransactionResponse Request Response bWasSuccessful OnSuccess OnError now this)
        = this) /\
  (forall Request Response bWasSuccessful now this,
      is_authenticate Request = false ->
      object (Complete Request Response bWasSuccessful now this) = this) /\
  (forall op now this,
      let calls := authenticate_calls (trace (call op now this)) in
      match op with
      | CallGetBalance _ _ _ | CallCreateTransaction _ _ _ _ _ _ | CallGetTransaction _ =>
          (calls = 1%nat <-> renewal_needed now this) /\
          (calls = 0%nat <-> ~ renewal_needed now this)
      | CallIsAuthenticated =>
          trace (call op now this) = [] /\
          value (IsAuthenticated now this) = negb (IsEmpty (AuthToken this))
      | CallGetNetworkStatus => calls = 0%nat
      | CallInitializeSDK _ _ => calls = 1%nat
      end).
Proof.
  assert (forall now this r,
             is_authenticate r = false ->
             let calls :=
               authenticate_calls (trace (EnsureAuthenticated now this) ++ [ProcessRequest r])
             in
             (calls = 1%nat <-> renewal_needed now this) /\
             (calls = 0%nat <-> ~ renewal_needed now this)) as Hrenew.
  { intros now this r Hr. cbv zeta.
    pose proof (renewal_needed_cond now this) as [H1 H2].
    unfold authenticate_calls. rewrite requests_app, EnsureAuthenticated_requests.
    destruct (_ || _); cbn; rewrite ?Hr; cbn;
      rewrite ?decide_False by discriminate; cbn.
    - split; split; intros; try discriminate; try reflexivity; auto.
      exfalso; auto.
    - split; split; intros Hx; try discriminate; try reflexivity.
      + apply H2 in Hx. discriminate Hx.
      + intros Hn. apply H2 in Hn. discriminate Hn. }
  split; [|split; [|split]].
  - intros op now this. destruct op; cbn [call].
    + rewrite InitializeSDK_outcome. auto.
    + rewrite GetBalance_outcome. auto.
    + rewrite CreateTransaction_outcome. auto.
    + rewrite GetTransaction_outcome. auto.
    + rewrite GetNetworkStatus_outcome. auto.
    + auto.
  - intros. rewrite OnBalanceResponse_outcome, OnTransactionResponse_outcome. auto.
  - intros Request Response bWasSuccessful now this Hna.
    unfold Complete, is_authenticate in *.
    destruct (OnProcessRequestComplete Request); try discriminate Hna;
      rewrite ?OnBalanceResponse_outcome, ?OnTransactionResponse_outcome; reflexivity.
  - intros op now this. cbv zeta. destruct op; cbn [call].
    + rewrite InitializeSDK_outcome. reflexivity.
    + rewrite GetBalance_outcome. cbn [trace].
      apply Hrenew. reflexivity.
    + rewrite CreateTransaction_outcome. cbn [trace].
      apply Hrenew. reflexivity.
    + rewrite GetTransaction_outcome. cbn [trace].
      apply Hrenew. reflexivity.
    + rewrite GetNetworkStatus_outcome. reflexivity.
    + split; reflexivity.
Qed.
End Properties.

(** * Further properties of the member functions *)

Section FurtherProperties.
Context `{JsonLibrary}.

Lemma OnAuthenticationResponse_outcome Request Response bWasSuccessful now this :
  OnAuthenticationResponse Request Response bWasSuccessful now this =
  match SuccessfulResponse Response bWasSuccessful with
  | Some R =>
      match Deserialize (ContentAsString R) with
      | Some JsonObject =>
          MkOutcome tt
            {| ApiUrl := ApiUrl this; ApiKey := ApiKey this;
               AuthToken := GetStringField JsonObject "token";
               TokenExpirationTime :=
                 dadd now (int32_to_double (GetIntegerField JsonObject "expires_in")) |}
            [LogLine Log "PlayerGold SDK authenticated successfully"]
      | None => MkOutcome tt this []
      end
  | None => MkOutcome tt this [LogLine Error "PlayerGold SDK authentication failed"]
  end.
Proof.
  unfold OnAuthenticationResponse.
  destruct (SuccessfulResponse Response bWasSuccessful) as [R|]; [|reflexivity].
  destruct (Deserialize (ContentAsString R)); reflexivity.
Qed.

Lemma authenticate_calls_app (t1 t2 : list Event) :
  authenticate_calls (t1 ++ t2) = (authenticate_calls t1 + authenticate_calls t2)%nat.
Proof.
  unfold authenticate_calls. rewrite requests_app, filter_app, length_app. reflexivity.
Qed.

Lemma contract_headers_authorization (token : FString) :
  contract_headers token !! "Authorization" =
  if IsEmpty token then None else Some ("Bearer " +:+ token).
Proof. unfold contract_headers. destruct (IsEmpty token); reflexivity. Qed.

(** The handler of the authenticate response has three outcomes and no
    other.  With an unsuccessful flag or an invalid response it logs an
    error and changes nothing.  With a successful response whose body does
    not deserialize it changes nothing and does nothing, not even a log
    line.  With a body that deserializes it logs success and overwrites the
    token and the expiry time, whatever the object holds.  It never changes
    the base URL or the API key and never invokes a delegate of a caller. *)
Theorem authentication_completion_cases Request Response bWasSuccessful now this :
  let out := OnAuthenticationResponse Request Response bWasSuccessful now this in
  ((bWasSuccessful = false \/ Response = None) /\
   out = MkOutcome tt this [LogLine Error "PlayerGold SDK authentication failed"]) \/
  (exists R, bWasSuccessful = true /\ Response = Some R /\
             Deserialize (ContentAsString R) = None /\
             out = MkOutcome tt this []) \/
  (exists R JsonObject,
      bWasSuccessful = true /\ Response = Some R /\
      Deserialize (ContentAsString R) = Some JsonObject /\
      trace out = [LogLine Log "PlayerGold SDK authenticated successfully"] /\
      AuthToken (object out) = GetStringField JsonObject "token" /\
      TokenExpirationTime (object out)
        = dadd now (int32_to_double (GetIntegerField JsonObject "expires_in")) /\
      ApiUrl (object out) = ApiUrl this /\ ApiKey (object out) = ApiKey this).
Proof.
  cbv zeta. rewrite OnAuthenticationResponse_outcome.
  destruct bWasSuccessful, Response as [R|]; cbn [SuccessfulResponse]; auto.
  destruct (Deserialize (ContentAsString R)) as [JsonObject|] eqn:HD.
  - right. right. exists R, JsonObject. cbn. auto 10.
  - right. left. exists R. auto.
Qed.

(** A decoded authenticate response determines the session whatever came
    before: processing any response and then a successful response whose body
    deserializes leaves the object as processing the second one alone
    does. *)
Theorem authentication_response_overwrites_session
    Request1 Response1 bWasSuccessful1 now1 Request2 R2 JsonObject now2 this :
  Deserialize (ContentAsString R2) = Some JsonObject ->
  object (OnAuthenticationResponse Request2 (Some R2) true now2
            (object (OnAuthenticationResponse Request1 Response1 bWasSuccessful1 now1 this)))
  = object (OnAuthenticationResponse Request2 (Some R2) true now2 this).
Proof.
  intros HD. rewrite !OnAuthenticationResponse_outcome. cbn [SuccessfulResponse].
  rewrite HD.
  destruct (SuccessfulResponse Response1 bWasSuccessful1) as [R1|]; [|reflexivity].
  destruct (Deserialize (ContentAsString R1)); reflexivity.
Qed.

(** A successful authenticate response whose body is a JSON object without a
    [token] field signs the client out while logging success: the stored
    token, whatever it was, becomes the empty string, [IsAuthenticated]
    answers [false], and at any later clock value renewal is needed, so
    [EnsureAuthenticated] sends an authenticate request. *)
Theorem authentication_without_token_signs_out
    Request R (JsonObject : FJsonObject) now this :
  Deserialize (ContentAsString R) = Some JsonObject ->
  JsonObject !! "token" = None ->
  let out := OnAuthenticationResponse Request (Some R) true now this in
  AuthToken (object out) = EmptyString /\
  trace out = [LogLine Log "PlayerGold SDK authenticated successfully"] /\
  forall later,
    value (IsAuthenticated later (object out)) = false /\
    renewal_needed later (object out) /\
    authenticate_calls (trace (EnsureAuthenticated later (object out))) = 1%nat.
Proof.
  intros HD Hmissing. cbv zeta. rewrite OnAuthenticationResponse_outcome.
  cbn [SuccessfulResponse]. rewrite HD. cbn [object trace AuthToken].
  assert (GetStringField JsonObject "token" = EmptyString) as Htoken.
  { unfold GetStringField, GetField. rewrite Hmissing. reflexivity. }
  rewrite Htoken. split; [reflexivity|]. split; [reflexivity|].
  intros later. split; [reflexivity|]. split; [left; reflexivity|].
  rewrite EnsureAuthenticated_outcome, Authenticate_outcome. reflexivity.
Qed.

(** [IsAuthenticated] answers [true] exactly when the requests the client
    builds carry an [Authorization] header, at whatever clock values the two
    are called: the expiry time plays no part in either.  After a successful
    authenticate response with a string token it answers whether that token
    is not empty. *)
Theorem IsAuthenticated_iff_requests_authorized :
  (forall Endpoint Verb0 now now' this,
      value (IsAuthenticated now this) = true <->
      is_Some (Headers (value (CreateRequest Endpoint Verb0 now' this)) !! "Authorization")) /\
  (forall Request R (JsonObject : FJsonObject) (token : FString) now later this,
      Deserialize (ContentAsString R) = Some JsonObject ->
      JsonObject !! "token" = Some (JString token) ->
      value (IsAuthenticated later
               (object (OnAuthenticationResponse Request (Some R) true now this)))
      = negb (IsEmpty token)).
Proof.
  split.
  - intros Endpoint Verb0 now now' this.
    rewrite IsAuthenticated_outcome, CreateRequest_outcome. cbn [value Headers].
    rewrite contract_headers_authorization.
    destruct (IsEmpty (AuthToken this)); cbn; split; intros E;
      try discriminate E; try reflexivity; try (inversion E; discriminate); eauto.
  - intros Request R JsonObject token now later this HD Htoken.
    rewrite OnAuthenticationResponse_outcome. cbn [SuccessfulResponse]. rewrite HD.
    rewrite IsAuthenticated_outcome. cbn [value object AuthToken].
    unfold GetStringField, GetField. rewrite Htoken. reflexivity.
Qed.
(** The responses to [GetTransaction] and [GetNetworkStatus] are never
    consumed: no handler is bound on the request either sends, so whatever
    the response and the flag, its completion changes nothing, logs nothing
    and invokes no delegate. *)
Theorem unbound_requests_drop_the_response Response bWasSuccessful now' this' :
  (forall TransactionHash now this Sent,
      request_of (GetTransaction TransactionHash) now this = Some Sent ->
      Complete Sent Response bWasSuccessful now' this' = MkOutcome tt this' []) /\
  (forall now this Sent,
      request_of GetNetworkStatus now this = Some Sent ->
      Complete Sent Response bWasSuccessful now' this' = MkOutcome tt this' []).
Proof.
  split.
  - intros TransactionHash now this Sent HS.
    rewrite GetTransaction_request in HS. injection HS as <-. reflexivity.
  - intros now this Sent HS. unfold request_of in HS.
    rewrite GetNetworkStatus_outcome in HS. injection HS as <-. reflexivity.
Qed.

(** No handler looks at the HTTP status code: two responses with the same
    body are handled alike, whatever their codes, by the completion of any
    request.  A response with an error status that reaches a handler with the
    success flag set is decoded like any other. *)
Theorem response_code_is_ignored
    (Sent : IHttpRequest) (code1 code2 : Z) (body : FString) bWasSuccessful now this :
  Complete Sent (Some {| ResponseCode := code1; ContentAsString := body |})
    bWasSuccessful now this
  = Complete Sent (Some {| ResponseCode := code2; ContentAsString := body |})
      bWasSuccessful now this.
Proof.
  unfold Complete. destruct (OnProcessRequestComplete Sent); [reflexivity|..].
  - rewrite !OnAuthenticationResponse_outcome. destruct bWasSuccessful; reflexivity.
  - rewrite !OnBalanceResponse_outcome. destruct bWasSuccessful; reflexivity.
  - rewrite !OnTransactionResponse_outcome. destruct bWasSuccessful; reflexivity.
Qed.

(** When the request of a [CreateTransaction] call completes successfully
    with a valid response: if the body does not deserialize, the handler
    executes the error delegate with the literal [Failed to parse transaction
    response]; if it deserializes, the handler executes the success delegate
    with the string read from the field [transaction_hash] and delivers no
    error, also when the object has no such field, where the hash delivered
    is the empty string.  The object is unchanged either way. *)
Theorem CreateTransaction_decode_outcome
    FromAddress ToAddress Amount PrivateKey OnSuccess OnError now this Sent R now' this' :
  request_of (CreateTransaction FromAddress ToAddress Amount PrivateKey OnSuccess OnError)
    now this = Some Sent ->
  let out := Complete Sent (Some R) true now' this' in
  object out = this' /\
  (Deserialize (ContentAsString R) = None ->
   trace out = error_delivery OnError "Failed to parse transaction response" /\
   success_invocations (trace out) = 0%nat) /\
  (forall JsonObject : FJsonObject,
      Deserialize (ContentAsString R) = Some JsonObject ->
      trace out = transaction_delivery OnSuccess (GetStringField JsonObject "transaction_hash") /\
      error_messages (trace out) = [] /\
      (forall hash, JsonObject !! "transaction_hash" = Some (JString hash) ->
                    trace out = transaction_delivery OnSuccess hash) /\
      (JsonObject !! "transaction_hash" = None ->
       trace out = transaction_delivery OnSuccess EmptyString)).
Proof.
  intros HS. rewrite CreateTransaction_request in HS. injection HS as <-. cbv zeta.
  unfold Complete. cbn [OnProcessRequestComplete].
  rewrite OnTransactionResponse_outcome. cbn [SuccessfulResponse object trace].
  split; [reflexivity|]. split.
  - intros ->. split; [reflexivity|]. destruct OnError; reflexivity.
  - intros JsonObject ->. split; [reflexivity|]. split; [|split].
    + destruct OnSuccess; reflexivity.
    + intros hash Hhash. unfold GetStringField, GetField. rewrite Hhash. reflexivity.
    + intros Hmissing. unfold GetStringField, GetField. rewrite Hmissing. reflexivity.
Qed.

(** An operation that starts with [EnsureAuthenticated] does not wait for
    the token.  When renewal is needed it sends the authenticate request and
    right after it its own request, and nothing else; otherwise it sends its
    own request only.  Its own request is built from the token held when the
    operation is called: without a token it carries no [Authorization]
    header although an authenticate request has just been sent, and with a
    token due for renewal it still carries that token. *)
Theorem guarded_operation_does_not_wait op now this Own :
  is_guarded op = true ->
  request_of (call op) now this = Some Own ->
  (renewal_needed now this ->
   exists Auth,
     trace (call op now this) = [ProcessRequest Auth; ProcessRequest Own] /\
     is_authenticate Auth = true /\ is_authenticate Own = false) /\
  (~ renewal_needed now this -> trace (call op now this) = [ProcessRequest Own]) /\
  (AuthToken this = EmptyString -> Headers Own !! "Authorization" = None) /\
  (AuthToken this <> EmptyString ->
   Headers Own !! "Authorization" = Some ("Bearer " +:+ AuthToken this)) /\
  object (call op now this) = this.
Proof.
  intros Hguarded HS.
  pose proof (renewal_needed_cond now this) as Hcond.
  assert (forall token : FString,
             (token = EmptyString -> contract_headers token !! "Authorization" = None) /\
             (token <> EmptyString ->
              contract_headers token !! "Authorization" = Some ("Bearer " +:+ token)))
    as Hheaders.
  { intros token. rewrite contract_headers_authorization.
    destruct token; cbn; split; intros E; congruence. }
  destruct op; try discriminate Hguarded; cbn [call] in *.
  - rewrite GetBalance_request in HS. injection HS as <-.
    rewrite GetBalance_outcome. cbn [trace object Headers].
    rewrite EnsureAuthenticated_outcome, Authenticate_outcome.
    destruct (_ || _); cbn [trace app];
      (split; [intros Hr; try (apply Hcond in Hr; discriminate Hr); eexists; eauto|]);
      (split; [intros Hn; try reflexivity; exfalso; apply Hn, Hcond; reflexivity|]);
      (split; [apply Hheaders | split; [apply Hheaders | reflexivity]]).
  - rewrite CreateTransaction_request in HS. injection HS as <-.
    rewrite CreateTransaction_outcome. cbn [trace object Headers].
    rewrite EnsureAuthenticated_outcome, Authenticate_outcome.
    destruct (_ || _); cbn [trace app];
      (split; [intros Hr; try (apply Hcond in Hr; discriminate Hr); eexists; eauto|]);
      (split; [intros Hn; try reflexivity; exfalso; apply Hn, Hcond; reflexivity|]);
      (split; [apply Hheaders | split; [apply Hheaders | reflexivity]]).
  - rewrite GetTransaction_request in HS. injection HS as <-.
    rewrite GetTransaction_outcome. cbn [trace object Headers].
    rewrite EnsureAuthenticated_outcome, Authenticate_outcome.
    destruct (_ || _); cbn [trace app];
      (split; [intros Hr; try (apply Hcond in Hr; discriminate Hr); eexists; eauto|]);
      (split; [intros Hn; try reflexivity; exfalso; apply Hn, Hcond; reflexivity|]);
      (split; [apply Hheaders | split; [apply Hheaders | reflexivity]]).
Qed.

(** [InitializeSDK] does not reset the session.  Called on a client that
    holds a token, it keeps the token, so [IsAuthenticated] still answers
    [true], and the authenticate request it sends to the new base URL carries
    that token in its [Authorization] header. *)
Theorem InitializeSDK_keeps_the_token InApiKey InApiUrl now this Sent :
  AuthToken this <> EmptyString ->
  request_of (InitializeSDK InApiKey InApiUrl) now this = Some Sent ->
  URL Sent = InApiUrl +:+ "/auth/token" /\
  Headers Sent !! "Authorization" = Some ("Bearer " +:+ AuthToken this) /\
  AuthToken (object (InitializeSDK InApiKey InApiUrl now this)) = AuthToken this /\
  forall later,
    value (IsAuthenticated later (object (InitializeSDK InApiKey InApiUrl now this))) = true.
Proof.
  intros Htoken HS. unfold request_of in HS. rewrite InitializeSDK_outcome in *.
  cbn in HS. injection HS as <-. cbn [URL Headers object AuthToken].
  rewrite contract_headers_authorization.
  apply IsEmpty_false in Htoken. rewrite Htoken.
  repeat split. intros later. rewrite IsAuthenticated_outcome. cbn. now rewrite Htoken.
Qed.

Lemma call_keeps_token op now this :
  AuthToken (object (call op now this)) = AuthToken this.
Proof.
  destruct op; cbn [call];
    rewrite ?InitializeSDK_outcome, ?GetBalance_outcome, ?CreateTransaction_outcome,
      ?GetTransaction_outcome, ?GetNetworkStatus_outcome; reflexivity.
Qed.

Lemma call_keeps_expiry op now this :
  TokenExpirationTime (object (call op now this)) = TokenExpirationTime this.
Proof.
  destruct op; cbn [call];
    rewrite ?InitializeSDK_outcome, ?GetBalance_outcome, ?CreateTransaction_outcome,
      ?GetTransaction_outcome, ?GetNetworkStatus_outcome; reflexivity.
Qed.

Lemma call_without_token op now this :
  AuthToken this = EmptyString ->
  authenticate_calls (trace (call op now this)) = if may_authenticate op then 1%nat else 0%nat.
Proof.
  intros Htoken. apply IsEmpty_true in Htoken.
  destruct op; cbn [call may_authenticate is_guarded];
    rewrite ?InitializeSDK_outcome, ?GetBalance_outcome, ?CreateTransaction_outcome,
      ?GetTransaction_outcome, ?GetNetworkStatus_outcome; cbn [trace];
    rewrite ?authenticate_calls_app, ?EnsureAuthenticated_outcome, ?Authenticate_outcome,
      ?Htoken; reflexivity.
Qed.

(** Authenticate requests are not de-duplicated, and no operation fills in
    the session: through any sequence of public operations called before a
    response is processed, the token and the expiry time stay as they were;
    and on a client without a token every call of [InitializeSDK],
    [GetBalance], [CreateTransaction] or [GetTransaction] in the sequence
    sends an authenticate request of its own. *)
Theorem authentication_is_not_deduplicated (calls : list (double * Operation)) this :
  AuthToken (object (call_each calls this)) = AuthToken this /\
  TokenExpirationTime (object (call_each calls this)) = TokenExpirationTime this /\
  (AuthToken this = EmptyString ->
   authenticate_calls (trace (call_each calls this))
   = length (filter (fun op => may_authenticate op = true) (map snd calls))).
Proof.
  revert this. induction calls as [|[now op] rest IH]; intros this.
  - cbn. auto.
  - cbn [call_each object trace map snd].
    destruct (IH (object (call op now this))) as [IHtoken [IHexpiry IHcalls]].
    rewrite IHtoken, IHexpiry, call_keeps_token, call_keeps_expiry.
    split; [reflexivity|]. split; [reflexivity|].
    intros Htoken. rewrite authenticate_calls_app, (call_without_token _ _ _ Htoken).
    rewrite IHcalls by (rewrite call_keeps_token; exact Htoken).
    rewrite filter_cons. destruct (may_authenticate op) eqn:Hop.
    + rewrite decide_True by reflexivity. reflexivity.
    + rewrite decide_False by discriminate. reflexivity.
Qed.

End FurtherProperties.

(** * The properties at concrete inputs *)

Import Reference.
Import Examples.

Example Deserialize_unexpected_shape :
  Deserialize unexpected_shape = Some {[ "unexpected" := JString "shape" ]}.
Proof. reflexivity. Qed.

Example Deserialize_token_body :
  Deserialize token_body
  = Some (<["expires_in" := JNumber (int32_to_double 3600)]> {[ "token" := JString "abc" ]}).
Proof. reflexivity. Qed.

Example Deserialize_balance_body :
  Deserialize balance_body = Some {[ "balance" := JNumber (85 # 2)%Q ]}.
Proof. reflexivity. Qed.

Example Deserialize_refused : Deserialize "insufficient permissions" = None.
Proof. reflexivity. Qed.

Example GetBalance_fresh_request :
  request_of (GetBalance "addr1" (BoundTo 1) (BoundTo 2)) 0%Q fresh
  = Some (balance_request (BoundTo 1) (BoundTo 2)).
Proof. reflexivity. Qed.

Example GetBalance_fresh_trace :
  trace (GetBalance "addr1" (BoundTo 1) (BoundTo 2) 0%Q fresh)
  = [ProcessRequest authentication_request;
     ProcessRequest (balance_request (BoundTo 1) (BoundTo 2))].
Proof. reflexivity. Qed.

Example GetBalance_delivers_balance :
  trace (Complete (balance_request (BoundTo 1) (BoundTo 2))
           (Some (ok_response balance_body)) true 0%Q fresh)
  = [BalanceReceived 1 (85 # 2)%Q].
Proof. reflexivity. Qed.

Example GetBalance_unexpected_shape_trace :
  trace (Complete (balance_request (BoundTo 1) (BoundTo 2))
           (Some (ok_response unexpected_shape)) true 0%Q fresh)
  = [BalanceReceived 1 0%Q].
Proof. reflexivity. Qed.

Example signed_in_needs_no_renewal : ~ renewal_needed 100%Q signed_in.
Proof. intros [E|E]; discriminate E. Qed.

(** C1, as stated, fails: the body [unexpected_shape] is valid JSON without a
    [balance] field, and the completion of the [GetBalance] request invokes
    the success delegate, with balance zero, and delivers no error
    message. *)
Lemma GetBalance_unexpected_shape_reaches_success :
  let Response := Some (ok_response unexpected_shape) in
  let Sent := balance_request (BoundTo 1) (BoundTo 2) in
  request_of (GetBalance "addr1" (BoundTo 1) (BoundTo 2)) 0%Q fresh = Some Sent /\
  Deserialize unexpected_shape = Some {[ "unexpected" := JString "shape" ]} /\
  HasField ({[ "unexpected" := JString "shape" ]} : FJsonObject) "balance" = false /\
  trace (Complete Sent Response true 0%Q fresh) = [BalanceReceived 1 0%Q] /\
  error_messages (trace (Complete Sent Response true 0%Q fresh)) = [] /\
  trace (Complete Sent Response true 0%Q fresh)
    <> [ErrorReceived 2 "Failed to parse balance response"].
Proof.
  cbv zeta. repeat split; try reflexivity.
  rewrite GetBalance_unexpected_shape_trace. discriminate.
Qed.

Lemma GetBalance_decode_outcome_witness :
  let out := Complete (balance_request (BoundTo 1) (BoundTo 2))
               (Some refused_response) true 0%Q fresh in
  trace out = [ErrorReceived 2 "Failed to parse balance response"] /\
  success_invocations (trace out) = 0%nat.
Proof.
  pose proof (@GetBalance_decode_outcome Q_Numeric Json "addr1" (BoundTo 1) (BoundTo 2) 0%Q fresh
                (balance_request (BoundTo 1) (BoundTo 2)) refused_response 0%Q fresh
                eq_refl) as [_ [Hnone _]].
  apply Hnone. reflexivity.
Defined.

Lemma authentication_success_sets_session_witness :
  let out := OnAuthenticationResponse (Some authentication_request)
               (Some (ok_response token_body)) true 100%Q fresh in
  AuthToken (object out) = "abc" /\
  TokenExpirationTime (object out) = (100 + inject_Z 3600)%Q /\
  ApiUrl (object out) = ApiUrl fresh /\ ApiKey (object out) = ApiKey fresh.
Proof.
  destruct (@authentication_success_sets_session Q_Numeric Json) as [Hsuccess _].
  apply (Hsuccess (Some authentication_request) (ok_response token_body)
           (<["expires_in" := JNumber (int32_to_double 3600)]> {[ "token" := JString "abc" ]})
           "abc" 3600 100%Q fresh).
  - reflexivity.
  - reflexivity.
  - reflexivity.
  - unfold Int32. lia.
Defined.

Lemma EnsureAuthenticated_triggers_iff_renewal_needed_witness :
  EnsureAuthenticated 100%Q signed_in = MkOutcome tt signed_in [].
Proof.
  destruct (@EnsureAuthenticated_triggers_iff_renewal_needed Q_Numeric Json 100%Q signed_in)
    as [_ [_ [_ [Hquiet _]]]].
  apply Hquiet.
  - discriminate.
  - reflexivity.
Defined.

Lemma authentication_failure_leaves_session_witness :
  OnAuthenticationResponse (Some authentication_request) (Some refused_response) false
    500%Q signed_in
  = MkOutcome tt signed_in [LogLine Error "PlayerGold SDK authentication failed"].
Proof.
  apply (@authentication_failure_leaves_session Q_Numeric Json (Some authentication_request)
           (Some refused_response) false 500%Q signed_in).
  left. reflexivity.
Defined.

Example GetBalance_refused_status_trace :
  trace (Complete (balance_request (BoundTo 1) (BoundTo 2)) (Some refused_response) true
           0%Q fresh)
  = [ErrorReceived 2 "Failed to parse balance response"].
Proof. reflexivity. Qed.

(** C6, as stated, fails: the response has the non-success status 403 and
    the body [insufficient permissions], and it reaches the handler of a
    [GetBalance] request with the success flag set.  The handler does not
    read the status; it tries to decode the body, and the error delegate
    receives the decode failure literal, not the raw body. *)
Lemma refused_status_is_decoded_not_reported :
  let Sent := balance_request (BoundTo 1) (BoundTo 2) in
  let out := Complete Sent (Some refused_response) true 0%Q fresh in
  request_of (GetBalance "addr1" (BoundTo 1) (BoundTo 2)) 0%Q fresh = Some Sent /\
  ResponseCode refused_response = 403 /\
  ContentAsString refused_response = "insufficient permissions" /\
  trace out = [ErrorReceived 2 "Failed to parse balance response"] /\
  error_messages (trace out) <> ["insufficient permissions"].
Proof.
  cbv zeta. repeat split; try reflexivity.
  rewrite GetBalance_refused_status_trace. discriminate.
Qed.

Lemma transport_failure_message_witness :
  trace (Complete (balance_request (BoundTo 1) (BoundTo 2)) (Some refused_response) false
           0%Q fresh)
  = [ErrorReceived 2 "insufficient permissions"].
Proof.
  destruct (@transport_failure_message Q_Numeric Json) as [Hflag _].
  destruct (Hflag (Some refused_response) false ltac:(left; reflexivity)) as [Hbalance _].
  destruct (Hbalance "addr1" (BoundTo 1) (BoundTo 2) 0%Q fresh
              (balance_request (BoundTo 1) (BoundTo 2)) 0%Q fresh
              eq_refl) as [_ [Hbound _]].
  apply (Hbound 2%nat). reflexivity.
Defined.

(** C8, as stated, fails for [IsAuthenticated] and for [InitializeSDK]: with
    no token renewal is needed and [EnsureAuthenticated] sends an authenticate
    request, but [IsAuthenticated] answers [false] and sends nothing; and with
    a token that is far from expiry renewal is not needed, yet
    [InitializeSDK] sends an authenticate request. *)
Lemma IsAuthenticated_does_not_decide_renewal :
  renewal_needed 0%Q fresh /\
  authenticate_calls (trace (EnsureAuthenticated 0%Q fresh)) = 1%nat /\
  authenticate_calls (trace (call CallIsAuthenticated 0%Q fresh)) = 0%nat /\
  value (IsAuthenticated 0%Q fresh) = false /\
  ~ renewal_needed 100%Q signed_in /\
  authenticate_calls
    (trace (call (CallInitializeSDK "key" DefaultApiUrl) 100%Q signed_in))
  = 1%nat.
Proof.
  split; [left; reflexivity|].
  repeat split; try reflexivity.
  exact signed_in_needs_no_renewal.
Qed.

Lemma session_frame_and_renewal_witness :
  object (Complete (balance_request (BoundTo 1) (BoundTo 2))
            (Some (ok_response token_body)) true 100%Q signed_in) = signed_in.
Proof.
  destruct (@session_frame_and_renewal Q_Numeric Json) as [_ [_ [Hframe _]]].
  apply Hframe. reflexivity.
Defined.

(** C9, as stated, fails: the error delegate of this [GetBalance] call is
    unbound, the request fails without a response, and the completion invokes
    neither callback. *)
Lemma unbound_error_delegate_invokes_neither :
  let Sent := balance_request (BoundTo 1) Unbound in
  request_of (GetBalance "addr1" (BoundTo 1) Unbound) 0%Q fresh = Some Sent /\
  trace (Complete Sent None false 0%Q fresh) = [] /\
  success_invocations (trace (Complete Sent None false 0%Q fresh)) = 0%nat /\
  error_messages (trace (Complete Sent None false 0%Q fresh)) = [].
Proof. cbv zeta. repeat split; reflexivity. Qed.

Lemma completion_executes_one_delegate_witness :
  let t := trace (Complete (transaction_request (BoundTo 1) (BoundTo 2))
                    (Some refused_response) true 0%Q fresh) in
  (success_invocations t + length (error_messages t) = 1)%nat.
Proof.
  destruct (@completion_executes_one_delegate Q_Numeric Json (Some refused_response) true 0%Q fresh)
    as [_ Htransaction].
  destruct (Htransaction "A" "B" 10%Q "k" (BoundTo 1) (BoundTo 2) 0%Q fresh
              (transaction_request (BoundTo 1) (BoundTo 2))
              eq_refl) as [_ [_ Hone]].
  apply Hone; reflexivity.
Defined.

Lemma request_construction_contract_witness :
  Headers (value (CreateRequest "/network/status" "GET" 100%Q signed_in)) !! "Authorization"
  = Some "Bearer abc".
Proof.
  destruct (@request_construction_contract Q_Numeric Json) as [Hbuild _].
  destruct (Hbuild "/network/status" "GET" 100%Q signed_in) as [_ [_ [_ [Hauth _]]]].
  apply Hauth. discriminate.
Defined.

Lemma GetBalance_url_is_plain_concatenation_witness :
  exists Request,
    request_of (GetBalance ("a" +:+ "/" +:+ "../transaction/x") Unbound Unbound) 100%Q signed_in
      = Some Request /\
    URL Request = "http://localhost:5000/api/v1/balance/a/../transaction/x".
Proof.
  destruct (@GetBalance_url_is_plain_concatenation Q_Numeric Json) as [_ [_ [Hslash _]]].
  destruct (Hslash "a" "../transaction/x" Unbound Unbound 100%Q signed_in)
    as [Request [Hsent Hurl]].
  exists Request. split; [exact Hsent|]. rewrite Hurl. reflexivity.
Defined.

(** ** The further properties at concrete inputs *)

Lemma authentication_response_overwrites_session_witness :
  object (OnAuthenticationResponse (Some authentication_request)
            (Some (ok_response token_body)) true 200%Q
            (object (OnAuthenticationResponse (Some authentication_request)
                       (Some (ok_response unexpected_shape)) true 100%Q signed_in)))
  = object (OnAuthenticationResponse (Some authentication_request)
              (Some (ok_response token_body)) true 200%Q signed_in).
Proof.
  apply (@authentication_response_overwrites_session Q_Numeric Json
           (Some authentication_request) (Some (ok_response unexpected_shape)) true 100%Q
           (Some authentication_request) (ok_response token_body)
           (<["expires_in" := JNumber (int32_to_double 3600)]> {[ "token" := JString "abc" ]})
           200%Q signed_in).
  reflexivity.
Defined.

Lemma authentication_without_token_signs_out_witness :
  let out := OnAuthenticationResponse (Some authentication_request)
               (Some (ok_response unexpected_shape)) true 100%Q signed_in in
  AuthToken (object out) = EmptyString /\
  trace out = [LogLine Log "PlayerGold SDK authenticated successfully"] /\
  forall later,
    value (IsAuthenticated later (object out)) = false /\
    renewal_needed later (object out) /\
    authenticate_calls (trace (EnsureAuthenticated later (object out))) = 1%nat.
Proof.
  apply (@authentication_without_token_signs_out Q_Numeric Json
           (Some authentication_request) (ok_response unexpected_shape)
           {[ "unexpected" := JString "shape" ]} 100%Q signed_in).
  - reflexivity.
  - reflexivity.
Defined.

Lemma IsAuthenticated_iff_requests_authorized_witness :
  value (IsAuthenticated 99999%Q
           (object (OnAuthenticationResponse (Some authentication_request)
                      (Some (ok_response token_body)) true 100%Q fresh)))
  = true.
Proof.
  destruct (@IsAuthenticated_iff_requests_authorized Q_Numeric Json) as [_ Hafter].
  apply (Hafter (Some authentication_request) (ok_response token_body)
           (<["expires_in" := JNumber (int32_to_double 3600)]> {[ "token" := JString "abc" ]})
           "abc" 100%Q 99999%Q fresh); reflexivity.
Defined.

Lemma unbound_requests_drop_the_response_witness :
  Complete
    {| URL := "http://localhost:5000/api/v1/transaction/h1"; Verb := "GET";
       Headers := {[ "Content-Type" := "application/json" ]};
       Content := EmptyString; OnProcessRequestComplete := NotBound |}
    (Some (ok_response balance_body)) true 5%Q signed_in
  = MkOutcome tt signed_in [].
Proof.
  destruct (@unbound_requests_drop_the_response Q_Numeric Json
              (Some (ok_response balance_body)) true 5%Q signed_in) as [Hget _].
  apply (Hget "h1" 0%Q fresh). reflexivity.
Defined.

Lemma CreateTransaction_decode_outcome_witness :
  trace (Complete (transaction_request (BoundTo 1) (BoundTo 2))
           (Some (ok_response unexpected_shape)) true 0%Q fresh)
  = [TransactionCreated 1 EmptyString].
Proof.
  destruct (@CreateTransaction_decode_outcome Q_Numeric Json
              "A" "B" 10%Q "k" (BoundTo 1) (BoundTo 2) 0%Q fresh
              (transaction_request (BoundTo 1) (BoundTo 2))
              (ok_response unexpected_shape) 0%Q fresh eq_refl)
    as [_ [_ Hdecoded]].
  destruct (Hdecoded {[ "unexpected" := JString "shape" ]} eq_refl)
    as [_ [_ [_ Hmissing]]].
  apply Hmissing. reflexivity.
Defined.

Lemma guarded_operation_does_not_wait_witness :
  trace (call (CallGetBalance "addr1" (BoundTo 1) (BoundTo 2)) 0%Q fresh)
  = [ProcessRequest authentication_request;
     ProcessRequest (balance_request (BoundTo 1) (BoundTo 2))] /\
  Headers (balance_request (BoundTo 1) (BoundTo 2)) !! "Authorization" = None.
Proof.
  destruct (@guarded_operation_does_not_wait Q_Numeric Json
              (CallGetBalance "addr1" (BoundTo 1) (BoundTo 2)) 0%Q fresh
              (balance_request (BoundTo 1) (BoundTo 2)) eq_refl eq_refl)
    as [_ [_ [Hnone _]]].
  split; [reflexivity|]. apply Hnone. reflexivity.
Defined.

Lemma InitializeSDK_keeps_the_token_witness :
  let Sent :=
    {| URL := "http://other.example/api/auth/token"; Verb := "POST";
       Headers := <[ "Authorization" := "Bearer abc" ]>
                    {[ "Content-Type" := "application/json" ]};
       Content := Serialize {[ "api_key" := JString "key2" ]};
       OnProcessRequestComplete := BoundOnAuthenticationResponse |} in
  request_of (InitializeSDK "key2" "http://other.example/api") 100%Q signed_in = Some Sent /\
  Headers Sent !! "Authorization" = Some "Bearer abc".
Proof.
  cbv zeta. split; [reflexivity|].
  refine (proj1 (proj2 (@InitializeSDK_keeps_the_token Q_Numeric Json
                          "key2" "http://other.example/api" 100%Q signed_in _ _ eq_refl))).
  discriminate.
Defined.

Lemma authentication_is_not_deduplicated_witness :
  authenticate_calls
    (trace (@call_each Q_Numeric Json
              [(0%Q, CallGetBalance "addr1" (BoundTo 1) (BoundTo 2));
               (1%Q, CallGetNetworkStatus);
               (2%Q, CallGetTransaction "h1");
               (3%Q, CallIsAuthenticated);
               (4%Q, @CallCreateTransaction Q_Numeric "A" "B" 10%Q "k" (BoundTo 1) (BoundTo 2))]
              fresh))
  = 3%nat.
Proof.
  destruct (@authentication_is_not_deduplicated Q_Numeric Json
              [(0%Q, CallGetBalance "addr1" (BoundTo 1) (BoundTo 2));
               (1%Q, CallGetNetworkStatus);
               (2%Q, CallGetTransaction "h1");
               (3%Q, CallIsAuthenticated);
               (4%Q, @CallCreateTransaction Q_Numeric "A" "B" 10%Q "k" (BoundTo 1) (BoundTo 2))]
              fresh) as [_ [_ Hcount]].
  rewrite Hcount; reflexivity.
Defined.

